(** * toastmon/wmi.c: WMI device-arrival notification of the toaster monitor

    A shallow embedding of [general/toaster/toastDrv/kmdf/toastmon/wmi.c]:
    [RegisterForWMINotification], [UnregisterForWMINotification],
    [GetTargetFriendlyName] and [WmiNotificationCallback].

    The driver code is translated statement by statement into a state
    monad over a [World]: the fields of the device extension the file
    touches, the kernel and framework objects its calls read or change,
    and a trace of the calls it makes (lock operations, queries on I/O
    targets, debug prints).  The kernel and framework routines the file
    calls (IoWMIOpenBlock, WdfIoTargetGetState, ...) are not part of the
    driver; each is modelled by a small definition over the [World] that
    states what the routine is taken to do.  [PAGED_CODE()] and the
    [alloc_text] pragmas concern paging and have no counterpart here. *)

From stdpp Require Import base numbers option list gmap.

Local Open Scope Z_scope.

(** ** Data *)

(** Kernel addresses and framework handles; [option handle] where the
    code admits NULL. *)
Definition handle := positive.

Definition WDFIOTARGET := handle.
Definition WDFMEMORY := handle.
Definition PDEVICE_OBJECT := handle.
Definition PVOID := handle.

(** NTSTATUS is a signed 32-bit LONG; [NT_SUCCESS] is [status >= 0]. *)
Definition NTSTATUS := Z.

Definition STATUS_SUCCESS : NTSTATUS := 0.
(* 0xC000009A as a LONG *)
Definition STATUS_INSUFFICIENT_RESOURCES : NTSTATUS := 0xC000009A - 2 ^ 32.

Definition NT_SUCCESS (status : NTSTATUS) : bool := bool_decide (0 ≤ status).

Definition ULONG := Z.
Definition WCHAR := Z.

(** GUID as in guiddef.h: 32 + 16 + 16 + 8 * 8 bits. *)
Record GUID := mkGUID {
  Data1 : Z;
  Data2 : Z;
  Data3 : Z;
  Data4 : list Z
}.

#[global] Instance GUID_eq_dec : EqDecision GUID.
Proof. solve_decision. Defined.

(** [IsEqualGUID] compares the sixteen bytes of its arguments. *)
Definition IsEqualGUID (a b : GUID) : bool := bool_decide (a = b).

(** WNODE_HEADER and WNODE_SINGLE_INSTANCE of wmistr.h.  The header
    carries the provider id and the event GUID; the fields after the
    header and the variable data are the body of the event. *)
Record WNODE_HEADER := mkWNODE_HEADER {
  BufferSize : ULONG;
  ProviderId : ULONG;
  HistoricalContext : Z;
  TimeStamp : Z;
  Guid : GUID;
  ClientContext : ULONG;
  Flags : ULONG
}.

Record WNODE_SINGLE_INSTANCE := mkWNODE_SINGLE_INSTANCE {
  WnodeHeader : WNODE_HEADER;
  OffsetInstanceName : ULONG;
  InstanceIndex : ULONG;
  DataBlockOffset : ULONG;
  SizeDataBlock : ULONG;
  VariableData : list Z
}.

(** WDF_IO_TARGET_STATE of wdfiotarget.h. *)
Inductive WDF_IO_TARGET_STATE :=
| WdfIoTargetStateUndefined
| WdfIoTargetStarted
| WdfIoTargetStopped
| WdfIoTargetClosedForQueryRemove
| WdfIoTargetClosed
| WdfIoTargetDeleted
| WdfIoTargetPurged.

#[global] Instance WDF_IO_TARGET_STATE_eq_dec : EqDecision WDF_IO_TARGET_STATE.
Proof. solve_decision. Defined.

(** The two DEVICE_REGISTRY_PROPERTY values the file asks for. *)
Inductive DEVICE_REGISTRY_PROPERTY :=
| DevicePropertyDeviceDescription
| DevicePropertyFriendlyName.

#[global] Instance DEVICE_REGISTRY_PROPERTY_eq_dec : EqDecision DEVICE_REGISTRY_PROPERTY.
Proof. solve_decision. Defined.

(** The [KdPrint] statements of the file, one constructor per format
    string, with the printed arguments. *)
Inductive dbg_msg :=
| MsgUnableToOpenBlock (status : NTSTATUS)
    (* "Unable to open wmi data block status 0x%x\n" *)
| MsgUnableToRegister (status : NTSTATUS)
    (* "Unable to register for wmi notification 0x%x\n" *)
| MsgQueryPropertyReturned (status : NTSTATUS)
    (* "WdfDeviceQueryProperty returned %x\n" *)
| MsgTargetNotOpened (ioTarget : WDFIOTARGET)
    (* "WDFIOTARGET %p not in an opened state.\n" *)
| MsgGetFriendlyNameReturned (status : NTSTATUS)
    (* "GetDeviceFriendlyName returned %x\n" *)
| MsgDeviceArrival (deviceName : list WCHAR)
    (* "%wZ fired a device arrival event\n" *)
| MsgUnknownEvent.
    (* "Unknown event.\n" *)

(** What the driver does to the outside, in program order. *)
Inductive event :=
| EvLockAcquire
| EvLockRelease
| EvGetState (ioTarget : WDFIOTARGET)
| EvGetDeviceObject (ioTarget : WDFIOTARGET)
| EvProviderId (devobj : PDEVICE_OBJECT)
| EvQueryProperty (ioTarget : WDFIOTARGET) (prop : DEVICE_REGISTRY_PROPERTY)
| EvMemoryDelete (memory : option WDFMEMORY)
| EvOpenBlock (guid : GUID)
| EvSetCallback (object : option PVOID)
| EvDereference (object : option PVOID)
| EvKdPrint (msg : dbg_msg).

#[global] Instance dbg_msg_eq_dec : EqDecision dbg_msg.
Proof. solve_decision. Defined.

#[global] Instance event_eq_dec : EqDecision event.
Proof. solve_decision. Defined.

(** The state the file runs against.

    The first three fields are the members of DEVICE_EXTENSION that wmi.c
    uses (the structure is declared in toastmon.h): the notification
    object slot, the collection of I/O targets held as the ordered list of
    its items, and the wait lock held as its state.

    The other fields are the kernel's and the framework's side: what the
    query routines answer for each I/O target, the live WDFMEMORY objects,
    the reference counts of kernel objects, the objects that have the
    notification callback installed, and what IoWMIOpenBlock and
    IoWMISetNotificationCallback are going to answer. *)
Record World := mkWorld {
  WMIDeviceArrivalNotificationObject : option PVOID;
  TargetDeviceCollection : list WDFIOTARGET;
  TargetDeviceCollectionLock : bool;

  io_target_state : WDFIOTARGET → WDF_IO_TARGET_STATE;
  io_target_devobj : WDFIOTARGET → option PDEVICE_OBJECT;
  wmi_provider_id : PDEVICE_OBJECT → ULONG;
  io_target_property :
    WDFIOTARGET → DEVICE_REGISTRY_PROPERTY → NTSTATUS * list WCHAR;
  wdf_memory : gmap WDFMEMORY (list WCHAR);
  ob_refs : gmap PVOID positive;
  wmi_notify : gset PVOID;
  wmi_open_status : NTSTATUS;
  wmi_open_object : PVOID;
  wmi_open_failed_out : option (option PVOID);
  wmi_setcb_status : NTSTATUS;

  trace : list event
}.

(** Field updates. *)
Definition set_slot (v : option PVOID) (w : World) : World :=
  mkWorld v (TargetDeviceCollection w) (TargetDeviceCollectionLock w)
    (io_target_state w) (io_target_devobj w) (wmi_provider_id w)
    (io_target_property w) (wdf_memory w) (ob_refs w) (wmi_notify w)
    (wmi_open_status w) (wmi_open_object w) (wmi_open_failed_out w)
    (wmi_setcb_status w) (trace w).

Definition set_lock (b : bool) (w : World) : World :=
  mkWorld (WMIDeviceArrivalNotificationObject w) (TargetDeviceCollection w) b
    (io_target_state w) (io_target_devobj w) (wmi_provider_id w)
    (io_target_property w) (wdf_memory w) (ob_refs w) (wmi_notify w)
    (wmi_open_status w) (wmi_open_object w) (wmi_open_failed_out w)
    (wmi_setcb_status w) (trace w).

Definition set_memory (m : gmap WDFMEMORY (list WCHAR)) (w : World) : World :=
  mkWorld (WMIDeviceArrivalNotificationObject w) (TargetDeviceCollection w)
    (TargetDeviceCollectionLock w)
    (io_target_state w) (io_target_devobj w) (wmi_provider_id w)
    (io_target_property w) m (ob_refs w) (wmi_notify w)
    (wmi_open_status w) (wmi_open_object w) (wmi_open_failed_out w)
    (wmi_setcb_status w) (trace w).

Definition set_objects (r : gmap PVOID positive) (n : gset PVOID) (w : World) : World :=
  mkWorld (WMIDeviceArrivalNotificationObject w) (TargetDeviceCollection w)
    (TargetDeviceCollectionLock w)
    (io_target_state w) (io_target_devobj w) (wmi_provider_id w)
    (io_target_property w) (wdf_memory w) r n
    (wmi_open_status w) (wmi_open_object w) (wmi_open_failed_out w)
    (wmi_setcb_status w) (trace w).

Definition emit (e : event) (w : World) : World :=
  mkWorld (WMIDeviceArrivalNotificationObject w) (TargetDeviceCollection w)
    (TargetDeviceCollectionLock w)
    (io_target_state w) (io_target_devobj w) (wmi_provider_id w)
    (io_target_property w) (wdf_memory w) (ob_refs w) (wmi_notify w)
    (wmi_open_status w) (wmi_open_object w) (wmi_open_failed_out w)
    (wmi_setcb_status w) (trace w ++ [e]).

(** ** The state monad *)

Definition M (A : Type) : Type := World → A * World.

#[global] Instance M_ret : MRet M := λ A a w, (a, w).
#[global] Instance M_bind : MBind M :=
  λ A B k m w, let '(a, w') := m w in k a w'.

Definition gets {A} (f : World → A) : M A := λ w, (f w, w).
Definition modify (f : World → World) : M unit := λ w, ((), f w).
Definition exec {A} (m : M A) (w : World) : World := snd (m w).
Definition eval {A} (m : M A) (w : World) : A := fst (m w).

(** ** Kernel and framework routines called by the file

    A routine that takes a handle which the C code could pass as NULL
    takes an [option handle] here. *)

(** Modelled from the spec: the [KdPrint] macro comes from the kit headers,
    not from the sources.  It is the logging sink of the driver: "accepts a
    formatted message; fire-and-forget, no return value observed".  Each
    [KdPrint((fmt, args))] statement that is reached is recorded. *)
Definition KdPrint (msg : dbg_msg) : M unit := modify (emit (EvKdPrint msg)).

(** Reference counts of kernel objects: an object is in the map while it
    is referenced. *)
Definition ob_reference (h : PVOID) (r : gmap PVOID positive) : gmap PVOID positive :=
  <[h := from_option Pos.succ 1%positive (r !! h)]> r.

Definition ob_dereference (h : PVOID) (r : gmap PVOID positive) : gmap PVOID positive :=
  match r !! h with
  | Some 1%positive => delete h r
  | Some p => <[h := Pos.pred p]> r
  | None => r
  end.

(** The notification callbacks of an object go away with the object. *)
Definition ob_notify_after (h : PVOID) (r : gmap PVOID positive) (n : gset PVOID) : gset PVOID :=
  match r !! h with
  | Some _ => n
  | None => n ∖ {[h]}
  end.

(** [IoWMIOpenBlock(&guid, access, &out)]: answers the status the world
    holds; on success a referenced data block object is stored through
    [out]; on failure the world says whether [out] is written and with
    what.  The result pairs the status with the write to [out]. *)
Definition IoWMIOpenBlock (guid : GUID) : M (NTSTATUS * option (option PVOID)) :=
  modify (emit (EvOpenBlock guid));;
  status ← gets wmi_open_status;
  if NT_SUCCESS status then
    obj ← gets wmi_open_object;
    modify (λ w, set_objects (ob_reference obj (ob_refs w)) (wmi_notify w) w);;
    mret (status, Some (Some obj))
  else
    out ← gets wmi_open_failed_out;
    mret (status, out).

(** [IoWMISetNotificationCallback(object, callback, context)]. *)
Definition IoWMISetNotificationCallback (object : option PVOID) : M NTSTATUS :=
  modify (emit (EvSetCallback object));;
  status ← gets wmi_setcb_status;
  match object with
  | Some obj =>
      if NT_SUCCESS status then
        modify (λ w, set_objects (ob_refs w) ({[obj]} ∪ wmi_notify w) w);;
        mret status
      else mret status
  | None => mret status
  end.

(** [ObDereferenceObject(object)]. *)
Definition ObDereferenceObject (object : option PVOID) : M unit :=
  modify (emit (EvDereference object));;
  match object with
  | Some obj =>
      modify (λ w,
        let r := ob_dereference obj (ob_refs w) in
        set_objects r (ob_notify_after obj r (wmi_notify w)) w)
  | None => mret ()
  end.

(** [WdfWaitLockAcquire(lock, NULL)]: with no timeout the call returns
    once the lock is owned. *)
Definition WdfWaitLockAcquire : M unit :=
  modify (emit EvLockAcquire);; modify (set_lock true).

(** [WdfWaitLockRelease(lock)]. *)
Definition WdfWaitLockRelease : M unit :=
  modify (emit EvLockRelease);; modify (set_lock false).

(** [WdfCollectionGetCount(hCollection)]. *)
Definition WdfCollectionGetCount : M nat :=
  gets (λ w, length (TargetDeviceCollection w)).

(** [WdfCollectionGetItem(hCollection, i)]: NULL when [i] is out of range. *)
Definition WdfCollectionGetItem (i : nat) : M (option WDFIOTARGET) :=
  gets (λ w, TargetDeviceCollection w !! i).

(** [WdfIoTargetGetState(ioTarget)]. *)
Definition WdfIoTargetGetState (ioTarget : WDFIOTARGET) : M WDF_IO_TARGET_STATE :=
  modify (emit (EvGetState ioTarget));;
  gets (λ w, io_target_state w ioTarget).

(** [WdfIoTargetWdmGetTargetDeviceObject(ioTarget)]. *)
Definition WdfIoTargetWdmGetTargetDeviceObject (ioTarget : WDFIOTARGET)
  : M (option PDEVICE_OBJECT) :=
  modify (emit (EvGetDeviceObject ioTarget));;
  gets (λ w, io_target_devobj w ioTarget).

(** [IoWMIDeviceObjectToProviderId(devobj)]. *)
Definition IoWMIDeviceObjectToProviderId (devobj : PDEVICE_OBJECT) : M ULONG :=
  modify (emit (EvProviderId devobj));;
  gets (λ w, wmi_provider_id w devobj).

(** [WdfIoTargetAllocAndQueryTargetProperty(target, prop, pool, attrs, &mem)]:
    on success a new WDFMEMORY object holds the property value and its
    handle is stored through [mem]; on failure nothing is allocated and
    [mem] is not written.  The result pairs the status with the write. *)
Definition WdfIoTargetAllocAndQueryTargetProperty
    (Target : WDFIOTARGET) (prop : DEVICE_REGISTRY_PROPERTY)
  : M (NTSTATUS * option WDFMEMORY) :=
  modify (emit (EvQueryProperty Target prop));;
  '(status, buffer) ← gets (λ w, io_target_property w Target prop);
  if NT_SUCCESS status then
    memory ← gets (λ w, fresh (dom (wdf_memory w)));
    modify (λ w, set_memory (<[memory := buffer]> (wdf_memory w)) w);;
    mret (status, Some memory)
  else mret (status, None).

(** [WdfMemoryGetBuffer(memory, NULL)]. *)
Definition WdfMemoryGetBuffer (memory : option WDFMEMORY) : M (list WCHAR) :=
  gets (λ w, default [] (memory ≫= λ m, wdf_memory w !! m)).

(** [WdfObjectDelete(memory)]. *)
Definition WdfObjectDelete (memory : option WDFMEMORY) : M unit :=
  modify (emit (EvMemoryDelete memory));;
  match memory with
  | Some m => modify (λ w, set_memory (delete m (wdf_memory w)) w)
  | None => mret ()
  end.

(** The most characters a UNICODE_STRING holds when RtlInitUnicodeString
    fills it: [Length] is a 16-bit count of bytes, and a source of
    0xFFFE bytes or more is cut to 0xFFFC bytes. *)
Definition UNICODE_STRING_MAX_CHARS : Z := 32766.

(** The characters of [buffer] before its first null character, at most
    [room] of them. *)
Fixpoint RtlInitUnicodeString_upto (room : Z) (buffer : list WCHAR) : list WCHAR :=
  match buffer with
  | [] => []
  | c :: rest =>
      if bool_decide (c = 0) || bool_decide (room ≤ 0) then []
      else c :: RtlInitUnicodeString_upto (room - 1) rest
  end.

(** [RtlInitUnicodeString(&s, buffer)]: the string [s] is what [%wZ]
    prints.  It runs up to the first null character of the buffer and is
    cut at [UNICODE_STRING_MAX_CHARS] characters. *)
Definition RtlInitUnicodeString (buffer : list WCHAR) : list WCHAR :=
  RtlInitUnicodeString_upto UNICODE_STRING_MAX_CHARS buffer.

(** ** The driver *)

Inductive loop_ctl := LoopContinue | LoopBreak.

(** How a routine that starts with an [ASSERT] ends. *)
Inductive outcome (A : Type) :=
| Returned (a : A) (w : World)
| AssertionFailed (w : World).
Arguments Returned {A} a w.
Arguments AssertionFailed {A} w.

Section Driver.

(** Whether the build is a checked (debug) build. *)
Variable DBG : bool.

(** The event GUID that public.h defines and the toaster function driver
    fires; public.h is not among the sources, so the GUID is a parameter. *)
Variable TOASTER_NOTIFY_DEVICE_ARRIVAL_EVENT : GUID.

(** Modelled from the spec: the [ASSERT] macro comes from the kit headers,
    not from the sources.  A violated precondition is "assert/fatal in
    debug" and ignored in release: the result is [false] exactly when the
    build is checked and [e] is false. *)
Definition ASSERT (e : bool) : bool := implb DBG e.

(** Lines 53-82: the body of [RegisterForWMINotification] after the
    assertion. *)
Definition RegisterForWMINotification_body : M NTSTATUS :=
  let wmiGuid := TOASTER_NOTIFY_DEVICE_ARRIVAL_EVENT in
  '(status, out) ← IoWMIOpenBlock wmiGuid;
  from_option (λ v, modify (set_slot v)) (mret ()) out;;
  if negb (NT_SUCCESS status) then
    KdPrint (MsgUnableToOpenBlock status);;
    modify (set_slot None);;
    mret status
  else
    object ← gets WMIDeviceArrivalNotificationObject;
    status ← IoWMISetNotificationCallback object;
    if negb (NT_SUCCESS status) then
      KdPrint (MsgUnableToRegister status);;
      object ← gets WMIDeviceArrivalNotificationObject;
      ObDereferenceObject object;;
      modify (set_slot None);;
      mret status
    else mret status.

Definition RegisterForWMINotification (w : World) : outcome NTSTATUS :=
  if ASSERT (bool_decide (WMIDeviceArrivalNotificationObject w = None)) then
    let '(status, w') := RegisterForWMINotification_body w in
    Returned status w'
  else AssertionFailed w.

Definition UnregisterForWMINotification : M unit :=
  object ← gets WMIDeviceArrivalNotificationObject;
  if bool_decide (object ≠ None) then
    ObDereferenceObject object;;
    modify (set_slot None)
  else mret ().

(** Returns the status and the value left in [*TargetName]. *)
Definition GetTargetFriendlyName (Target : WDFIOTARGET)
  : M (NTSTATUS * option WDFMEMORY) :=
  '(status, TargetName) ←
    WdfIoTargetAllocAndQueryTargetProperty Target DevicePropertyFriendlyName;
  '(status, TargetName) ←
    (if negb (NT_SUCCESS status)
        && bool_decide (status ≠ STATUS_INSUFFICIENT_RESOURCES)
     then
       '(status, TargetName') ←
         WdfIoTargetAllocAndQueryTargetProperty Target
           DevicePropertyDeviceDescription;
       mret (status, from_option Some TargetName TargetName')
     else mret (status, TargetName));
  (if negb (NT_SUCCESS status)
   then KdPrint (MsgQueryPropertyReturned status)
   else mret ());;
  mret (status, TargetName).

(** One pass through the body of the [for] loop of
    [WmiNotificationCallback] (lines 190-233), ending in [continue],
    in [break] or at the end of the body. *)
Definition WmiNotificationCallback_body
    (wnode : WNODE_SINGLE_INSTANCE) (ioTarget : WDFIOTARGET) : M loop_ctl :=
  ioTargetState ← WdfIoTargetGetState ioTarget;
  if bool_decide (ioTargetState ≠ WdfIoTargetStarted) then
    KdPrint (MsgTargetNotOpened ioTarget);;
    mret LoopContinue
  else
    devobj ← WdfIoTargetWdmGetTargetDeviceObject ioTarget;
    match devobj with
    | None => mret LoopContinue
    | Some devobj =>
        providerId ← IoWMIDeviceObjectToProviderId devobj;
        if bool_decide (providerId = ProviderId (WnodeHeader wnode)) then
          if IsEqualGUID (Guid (WnodeHeader wnode))
               TOASTER_NOTIFY_DEVICE_ARRIVAL_EVENT
          then
            '(status, memory) ← GetTargetFriendlyName ioTarget;
            if negb (NT_SUCCESS status) then
              KdPrint (MsgGetFriendlyNameReturned status);;
              mret LoopBreak
            else
              buffer ← WdfMemoryGetBuffer memory;
              let deviceName := RtlInitUnicodeString buffer in
              KdPrint (MsgDeviceArrival deviceName);;
              WdfObjectDelete memory;;
              mret LoopBreak
          else
            KdPrint MsgUnknownEvent;;
            mret LoopContinue
        else mret LoopContinue
    end.

(** The [for] loop from index [i] on: the count is read again before
    every pass, as the condition [i < WdfCollectionGetCount(hCollection)]
    does.  [fuel] bounds the number of passes.  Below the count the item
    is never NULL; [WmiNotificationCallback_loop_run] shows that neither
    the NULL branch nor the end of the fuel cuts a scan short. *)
Fixpoint WmiNotificationCallback_loop
    (fuel : nat) (wnode : WNODE_SINGLE_INSTANCE) (i : nat) : M unit :=
  match fuel with
  | O => mret ()
  | S fuel =>
      count ← WdfCollectionGetCount;
      if bool_decide (i < count)%nat then
        ioTarget ← WdfCollectionGetItem i;
        match ioTarget with
        | None => mret ()
        | Some ioTarget =>
            ctl ← WmiNotificationCallback_body wnode ioTarget;
            match ctl with
            | LoopBreak => mret ()
            | LoopContinue => WmiNotificationCallback_loop fuel wnode (S i)
            end
        end
      else mret ()
  end.

(** The loop gets as many passes as the collection has items when the
    callback is entered. *)
Definition WmiNotificationCallback (Wnode : WNODE_SINGLE_INSTANCE) : M unit :=
  let wnode := Wnode in
  WdfWaitLockAcquire;;
  count ← WdfCollectionGetCount;
  WmiNotificationCallback_loop count wnode 0;;
  WdfWaitLockRelease.

End Driver.

(** ** What the driver is expected to emit

    Closed forms of the traces, as functions of what the world answers.
    The run lemmas below prove that the code above emits exactly these. *)

(** The world after the events [evs]. *)
Definition add_trace (evs : list event) (w : World) : World :=
  mkWorld (WMIDeviceArrivalNotificationObject w) (TargetDeviceCollection w)
    (TargetDeviceCollectionLock w)
    (io_target_state w) (io_target_devobj w) (wmi_provider_id w)
    (io_target_property w) (wdf_memory w) (ob_refs w) (wmi_notify w)
    (wmi_open_status w) (wmi_open_object w) (wmi_open_failed_out w)
    (wmi_setcb_status w) (trace w ++ evs).

(** Name resolution for target [t]: the final status, the text of the
    property that was obtained (empty on failure) and the events. *)
Definition name_query (w : World) (t : WDFIOTARGET)
  : NTSTATUS * list WCHAR * list event :=
  let '(st1, buf1) := io_target_property w t DevicePropertyFriendlyName in
  let q1 := EvQueryProperty t DevicePropertyFriendlyName in
  let q2 := EvQueryProperty t DevicePropertyDeviceDescription in
  if NT_SUCCESS st1 then (st1, buf1, [q1])
  else if bool_decide (st1 = STATUS_INSUFFICIENT_RESOURCES)
  then (st1, [], [q1; EvKdPrint (MsgQueryPropertyReturned st1)])
  else
    let '(st2, buf2) := io_target_property w t DevicePropertyDeviceDescription in
    if NT_SUCCESS st2 then (st2, buf2, [q1; q2])
    else (st2, [], [q1; q2; EvKdPrint (MsgQueryPropertyReturned st2)]).

(** Target [u] is Started, has a device object, and the provider id of
    that device object is the provider id of the event. *)
Definition target_matches (w : World) (wnode : WNODE_SINGLE_INSTANCE)
    (u : WDFIOTARGET) : bool :=
  bool_decide (io_target_state w u = WdfIoTargetStarted) &&
  match io_target_devobj w u with
  | Some d => bool_decide (wmi_provider_id w d = ProviderId (WnodeHeader wnode))
  | None => false
  end.

(** The calls of one pass up to the comparison of provider ids. *)
Definition probe_events (w : World) (u : WDFIOTARGET) : list event :=
  EvGetState u ::
  if bool_decide (io_target_state w u = WdfIoTargetStarted) then
    EvGetDeviceObject u ::
    match io_target_devobj w u with
    | Some d => [EvProviderId d]
    | None => []
    end
  else [].

(** A pass that goes on to the next item. *)
Definition continue_events (w : World) (wnode : WNODE_SINGLE_INSTANCE)
    (u : WDFIOTARGET) : list event :=
  probe_events w u ++
  if bool_decide (io_target_state w u = WdfIoTargetStarted) then
    if target_matches w wnode u then [EvKdPrint MsgUnknownEvent] else []
  else [EvKdPrint (MsgTargetNotOpened u)].

(** The end of a pass that found the device: the name is resolved and
    printed and its buffer deleted, or the failure is printed. *)
Definition resolve_events (w : World) (t : WDFIOTARGET) : list event :=
  let '(st, buf, evs) := name_query w t in
  evs ++
  if NT_SUCCESS st then
    [EvKdPrint (MsgDeviceArrival (RtlInitUnicodeString buf));
     EvMemoryDelete (Some (fresh (dom (wdf_memory w))))]
  else [EvKdPrint (MsgGetFriendlyNameReturned st)].

(** The events of the loop over the items [l]. *)
Fixpoint scan_events (arrival : GUID) (w : World) (wnode : WNODE_SINGLE_INSTANCE)
    (l : list WDFIOTARGET) : list event :=
  match l with
  | [] => []
  | u :: l =>
      if target_matches w wnode u && IsEqualGUID (Guid (WnodeHeader wnode)) arrival
      then probe_events w u ++ resolve_events w u
      else continue_events w wnode u ++ scan_events arrival w wnode l
  end.

(** [e] is an event of a scan of targets of [l]: no lock or registration
    event, and every target named is one of [l]. *)
Definition scan_event_of (l : list WDFIOTARGET) (e : event) : Prop :=
  match e with
  | EvGetState u | EvGetDeviceObject u | EvQueryProperty u _
  | EvKdPrint (MsgTargetNotOpened u) => u ∈ l
  | EvProviderId _ | EvMemoryDelete _ | EvKdPrint _ => True
  | EvLockAcquire | EvLockRelease
  | EvOpenBlock _ | EvSetCallback _ | EvDereference _ => False
  end.

#[global] Instance scan_event_of_dec l e : Decision (scan_event_of l e).
Proof. destruct e as [| | | | | | | | | |[]]; cbn; apply _. Defined.

(** ** Running the monad *)

Ltac run1 :=
  cbv [mbind M_bind mret M_ret gets modify exec eval KdPrint
       WdfIoTargetAllocAndQueryTargetProperty WdfMemoryGetBuffer WdfObjectDelete
       WdfIoTargetGetState WdfIoTargetWdmGetTargetDeviceObject
       IoWMIDeviceObjectToProviderId WdfCollectionGetCount WdfCollectionGetItem
       WdfWaitLockAcquire WdfWaitLockRelease
       IoWMIOpenBlock IoWMISetNotificationCallback ObDereferenceObject];
  cbn [emit set_lock set_memory set_objects set_slot add_trace
       WMIDeviceArrivalNotificationObject TargetDeviceCollection
       TargetDeviceCollectionLock io_target_state io_target_devobj
       wmi_provider_id io_target_property wdf_memory ob_refs wmi_notify
       wmi_open_status wmi_open_object wmi_open_failed_out wmi_setcb_status
       trace fst snd negb andb from_option].

Ltac run := repeat progress run1.

Ltac use H := repeat first [rewrite H | progress run].

(** Equality of two worlds built by field updates. *)
Ltac norm :=
  repeat match goal with w : World |- _ => destruct w end;
  cbv [emit set_lock set_memory set_objects set_slot add_trace
       WMIDeviceArrivalNotificationObject TargetDeviceCollection
       TargetDeviceCollectionLock io_target_state io_target_devobj
       wmi_provider_id io_target_property wdf_memory ob_refs wmi_notify
       wmi_open_status wmi_open_object wmi_open_failed_out wmi_setcb_status
       trace];
  rewrite <- ?(assoc_L (++)); cbn [app].

(** ** An example

    Three targets in the collection: target 1 is stopped, targets 2 and 3
    are started; the device object of target [t] is [t + 10]; the device
    object of target 1 has provider id 0xA, the others 0xB.  Target 3 has
    a friendly name; target 2 has none but has a device description;
    target 1 has neither; the friendly-name query on target 4 runs out of
    memory.  A data block can be opened, the callback cannot be set. *)

Definition STATUS_UNSUCCESSFUL : NTSTATUS := 0xC0000001 - 2 ^ 32.
Definition STATUS_OBJECT_NAME_NOT_FOUND : NTSTATUS := 0xC0000034 - 2 ^ 32.

Definition example_arrival : GUID :=
  mkGUID 0x11223344 0x5566 0x7788 [0x99; 0xaa; 0xbb; 0xcc; 0xdd; 0xee; 0xff; 0x00].

Definition example_other : GUID :=
  mkGUID 0x11223345 0x5566 0x7788 [0x99; 0xaa; 0xbb; 0xcc; 0xdd; 0xee; 0xff; 0x00].

Definition example_property (t : WDFIOTARGET) (prop : DEVICE_REGISTRY_PROPERTY)
  : NTSTATUS * list WCHAR :=
  match prop with
  | DevicePropertyFriendlyName =>
      if bool_decide (t = 3%positive) then (STATUS_SUCCESS, [84; 51; 0])
      else if bool_decide (t = 4%positive) then (STATUS_INSUFFICIENT_RESOURCES, [])
      else (STATUS_OBJECT_NAME_NOT_FOUND, [])
  | DevicePropertyDeviceDescription =>
      if bool_decide (t = 2%positive) then (STATUS_SUCCESS, [84; 50; 0; 7])
      else (STATUS_UNSUCCESSFUL, [])
  end.

Definition example_world : World :=
  mkWorld None [1; 2; 3]%positive false
    (λ t, if bool_decide (t = 1%positive)
          then WdfIoTargetStopped else WdfIoTargetStarted)
    (λ t, Some (t + 10)%positive)
    (λ d, if bool_decide (d = 11%positive) then 0xA else 0xB)
    example_property
    ∅ ∅ ∅
    STATUS_SUCCESS 77%positive None STATUS_UNSUCCESSFUL
    [].

(** An event of provider 0xB with GUID [g] and body [body]. *)
Definition example_event (g : GUID) (body : list Z) : WNODE_SINGLE_INSTANCE :=
  mkWNODE_SINGLE_INSTANCE (mkWNODE_HEADER 64 0xB 0 0 g 0 0) 0 0 64 (Z.of_nat (length body)) body.

(** ** Observing a run *)

(** The events a computation adds to the trace. *)
Definition emitted {A} (m : M A) (w : World) : list event :=
  drop (length (trace w)) (trace (exec m w)).

(** How many events of a list satisfy [p]. *)
Fixpoint count_events (p : event → bool) (l : list event) : nat :=
  match l with
  | [] => 0
  | e :: l => ((if p e then 1 else 0) + count_events p l)%nat
  end.

(** A name resolution starts with one query of the friendly name. *)
Definition is_name_resolution (e : event) : bool :=
  match e with
  | EvQueryProperty _ DevicePropertyFriendlyName => true
  | _ => false
  end.

Definition is_arrival_print (e : event) : bool :=
  match e with
  | EvKdPrint (MsgDeviceArrival _) => true
  | _ => false
  end.

Definition is_unknown_print (e : event) : bool :=
  match e with
  | EvKdPrint MsgUnknownEvent => true
  | _ => false
  end.

(** The events of a name resolution and of what the callback does with
    its result. *)
Definition is_resolution_event (e : event) : bool :=
  match e with
  | EvQueryProperty _ _ | EvMemoryDelete _
  | EvKdPrint (MsgDeviceArrival _)
  | EvKdPrint (MsgGetFriendlyNameReturned _)
  | EvKdPrint (MsgQueryPropertyReturned _) => true
  | _ => false
  end.

(** What holds of every event of a scan of the items [l] in world [w]
    for the event [wnode]: the conditions the code has checked when it
    gets there. *)
Definition scan_event_ok (arrival : GUID) (w : World)
    (wnode : WNODE_SINGLE_INSTANCE) (l : list WDFIOTARGET) (e : event) : Prop :=
  match e with
  | EvGetState u => u ∈ l
  | EvGetDeviceObject u => u ∈ l ∧ io_target_state w u = WdfIoTargetStarted
  | EvProviderId d =>
      ∃ u, u ∈ l ∧ io_target_state w u = WdfIoTargetStarted
           ∧ io_target_devobj w u = Some d
  | EvQueryProperty u _ =>
      u ∈ l ∧ target_matches w wnode u = true
      ∧ Guid (WnodeHeader wnode) = arrival
  | EvMemoryDelete m => ∃ h, m = Some h ∧ wdf_memory w !! h = None
  | EvKdPrint (MsgTargetNotOpened u) =>
      u ∈ l ∧ io_target_state w u ≠ WdfIoTargetStarted
  | EvKdPrint MsgUnknownEvent =>
      Guid (WnodeHeader wnode) ≠ arrival
      ∧ ∃ u, u ∈ l ∧ target_matches w wnode u = true
  | EvKdPrint (MsgDeviceArrival _)
  | EvKdPrint (MsgGetFriendlyNameReturned _)
  | EvKdPrint (MsgQueryPropertyReturned _) =>
      Guid (WnodeHeader wnode) = arrival
      ∧ ∃ u, u ∈ l ∧ target_matches w wnode u = true
  | _ => False
  end.

(** The example world with a notification callback that can be set. *)
Definition example_world_registrable : World :=
  mkWorld None [1; 2; 3]%positive false
    (io_target_state example_world) (io_target_devobj example_world)
    (wmi_provider_id example_world) example_property
    ∅ ∅ ∅
    STATUS_SUCCESS 77%positive None STATUS_SUCCESS
    [].

(** The example world with the collection [l]. *)
Definition example_world_of (l : list WDFIOTARGET) : World :=
  mkWorld None l false
    (io_target_state example_world) (io_target_devobj example_world)
    (wmi_provider_id example_world) example_property
    ∅ ∅ ∅
    STATUS_SUCCESS 77%positive None STATUS_UNSUCCESSFUL
    [].

(** The example world with a data block that cannot be opened; the
    failed IoWMIOpenBlock leaves the address 99 in its output. *)
Definition example_world_closed : World :=
  mkWorld None [1; 2; 3]%positive false
    (io_target_state example_world) (io_target_devobj example_world)
    (wmi_provider_id example_world) example_property
    ∅ ∅ ∅
    STATUS_UNSUCCESSFUL 77%positive (Some (Some 99%positive)) STATUS_SUCCESS
    [].

(** An event of provider 0xC, which no target of the example has. *)
Definition example_stray_event (g : GUID) : WNODE_SINGLE_INSTANCE :=
  mkWNODE_SINGLE_INSTANCE (mkWNODE_HEADER 64 0xC 0 0 g 0 0) 0 0 64 0 [].

(** ** Run lemmas *)

Lemma NT_SUCCESS_INSUFFICIENT_RESOURCES :
  NT_SUCCESS STATUS_INSUFFICIENT_RESOURCES = false.
Proof. reflexivity. Qed.

Lemma add_trace_nil w : add_trace [] w = w.
Proof. destruct w. unfold add_trace. cbn. by rewrite app_nil_r. Qed.

Lemma add_trace_add_trace e1 e2 w :
  add_trace e2 (add_trace e1 w) = add_trace (e1 ++ e2) w.
Proof. unfold add_trace. cbn. by rewrite (assoc_L (++)). Qed.

Lemma name_query_emit e w u : name_query (emit e w) u = name_query w u.
Proof. reflexivity. Qed.

Lemma GetTargetFriendlyName_run w t :
  GetTargetFriendlyName t w =
    let '(st, buf, evs) := name_query w t in
    if NT_SUCCESS st then
      let m := fresh (dom (wdf_memory w)) in
      ((st, Some m), set_memory (<[m := buf]> (wdf_memory w)) (add_trace evs w))
    else ((st, None), add_trace evs w).
Proof.
  unfold GetTargetFriendlyName, name_query. run.
  destruct (io_target_property w t DevicePropertyFriendlyName) as [st1 buf1].
  destruct (NT_SUCCESS st1) eqn:S1; use S1.
  - reflexivity.
  - destruct (decide (st1 = STATUS_INSUFFICIENT_RESOURCES)) as [Hir|Hir].
    + rewrite (bool_decide_true _ Hir), bool_decide_false by (intros ?; contradiction).
      use S1. norm. reflexivity.
    + rewrite (bool_decide_false _ Hir), (bool_decide_true _ Hir). run.
      destruct (io_target_property w t DevicePropertyDeviceDescription) as [st2 buf2].
      destruct (NT_SUCCESS st2) eqn:S2; use S2; norm; reflexivity.
Qed.

Section Callback.

Context (arrival : GUID).

Lemma WmiNotificationCallback_body_run wnode u w :
  WmiNotificationCallback_body arrival wnode u w =
    if target_matches w wnode u
       && IsEqualGUID (Guid (WnodeHeader wnode)) arrival
    then (LoopBreak, add_trace (probe_events w u ++ resolve_events w u) w)
    else (LoopContinue, add_trace (continue_events w wnode u) w).
Proof.
  unfold WmiNotificationCallback_body, target_matches, continue_events,
    probe_events, target_matches. run.
  destruct (decide (io_target_state w u = WdfIoTargetStarted)) as [Hs|Hs].
  - rewrite (bool_decide_true _ Hs), bool_decide_false by (intros ?; contradiction).
    run. destruct (io_target_devobj w u) as [d|]; run; [|norm; reflexivity].
    case_bool_decide as Hp; run; [|norm; reflexivity].
    destruct (IsEqualGUID _ arrival); run; [|norm; reflexivity].
    rewrite GetTargetFriendlyName_run. unfold resolve_events. run.
    rewrite !name_query_emit.
    destruct (name_query w u) as [[st buf] evs].
    destruct (NT_SUCCESS st) eqn:Hst; use Hst.
    + cbn [option_bind]. rewrite lookup_insert_eq. cbn [default].
      rewrite delete_insert_id by apply not_elem_of_dom, is_fresh.
      norm. reflexivity.
    + norm. reflexivity.
  - rewrite (bool_decide_false _ Hs), bool_decide_true by assumption.
    run. norm. reflexivity.
Qed.

Lemma scan_events_add_trace evs w wnode l :
  scan_events arrival (add_trace evs w) wnode l = scan_events arrival w wnode l.
Proof. induction l as [|u l IH]; [done|]. cbn [scan_events]. by rewrite IH. Qed.

Lemma scan_events_set_lock b w wnode l :
  scan_events arrival (set_lock b w) wnode l = scan_events arrival w wnode l.
Proof. induction l as [|u l IH]; [done|]. cbn [scan_events]. by rewrite IH. Qed.

(** Any fuel that covers the items from [i] on runs the loop to its
    end: the loop stops on [break] or on [i] reaching the count. *)
Lemma WmiNotificationCallback_loop_run wnode fuel : ∀ i w,
  (length (TargetDeviceCollection w) - i ≤ fuel)%nat →
  WmiNotificationCallback_loop arrival fuel wnode i w =
    ((), add_trace
           (scan_events arrival w wnode (drop i (TargetDeviceCollection w))) w).
Proof.
  induction fuel as [|fuel IH]; intros i w Hfuel.
  - rewrite drop_ge by lia. cbn. by rewrite add_trace_nil.
  - cbn [WmiNotificationCallback_loop]. run.
    case_bool_decide as Hi.
    + destruct (lookup_lt_is_Some_2 _ _ Hi) as [u Hu]. rewrite Hu.
      rewrite (drop_S _ _ _ Hu). cbn [scan_events].
      rewrite WmiNotificationCallback_body_run.
      destruct (target_matches w wnode u && IsEqualGUID _ arrival); [done|].
      rewrite IH by (cbn; lia). cbn [TargetDeviceCollection add_trace].
      by rewrite scan_events_add_trace, add_trace_add_trace.
    + rewrite drop_ge by lia. cbn. by rewrite add_trace_nil.
Qed.

Lemma WmiNotificationCallback_run wnode w :
  WmiNotificationCallback arrival wnode w =
    ((), set_lock false
           (add_trace ([EvLockAcquire]
                         ++ scan_events arrival w wnode (TargetDeviceCollection w)
                         ++ [EvLockRelease]) w)).
Proof.
  unfold WmiNotificationCallback. run.
  rewrite WmiNotificationCallback_loop_run by (cbn; lia).
  cbn [drop TargetDeviceCollection set_lock emit].
  change (emit EvLockAcquire w) with (add_trace [EvLockAcquire] w).
  rewrite scan_events_set_lock, scan_events_add_trace.
  norm. reflexivity.
Qed.

(** While no item ends the loop, the scan is the passes one after the
    other. *)
Lemma scan_events_first_match w wnode pre t post :
  Guid (WnodeHeader wnode) = arrival →
  Forall (λ u, target_matches w wnode u = false) pre →
  target_matches w wnode t = true →
  scan_events arrival w wnode (pre ++ t :: post) =
    flat_map (continue_events w wnode) pre
      ++ probe_events w t ++ resolve_events w t.
Proof.
  intros Hg Hpre Ht. induction Hpre as [|u pre Hu _ IH]; cbn [scan_events app flat_map].
  - rewrite Ht. unfold IsEqualGUID. by rewrite bool_decide_true.
  - rewrite Hu. cbn [andb]. by rewrite IH, (assoc_L (++)).
Qed.

Lemma scan_events_other_class w wnode l :
  Guid (WnodeHeader wnode) ≠ arrival →
  scan_events arrival w wnode l = flat_map (continue_events w wnode) l.
Proof.
  intros Hg. induction l as [|u l IH]; [done|]. cbn [scan_events flat_map].
  unfold IsEqualGUID. rewrite bool_decide_false by done.
  by rewrite andb_false_r, IH.
Qed.

End Callback.

(** ** The events of a scan *)

Lemma scan_event_of_mono l l' e :
  l ⊆ l' → scan_event_of l e → scan_event_of l' e.
Proof. intros Hl. destruct e as [| | | | | | | | | |[]]; cbn; auto. Qed.

Create HintDb scan.
#[local] Hint Extern 1 (scan_event_of _ _) => (cbn; set_solver) : scan.
#[local] Hint Constructors Forall : scan.

Lemma probe_events_of w u : Forall (scan_event_of [u]) (probe_events w u).
Proof.
  unfold probe_events.
  case_bool_decide; [destruct (io_target_devobj w u)|]; auto with scan.
Qed.

Lemma continue_events_of w wnode u :
  Forall (scan_event_of [u]) (continue_events w wnode u).
Proof.
  unfold continue_events. apply Forall_app. split; [apply probe_events_of|].
  case_bool_decide; [destruct (target_matches w wnode u)|]; auto with scan.
Qed.

Lemma name_query_of w u :
  Forall (scan_event_of [u]) (name_query w u).2.
Proof.
  unfold name_query.
  destruct (io_target_property w u DevicePropertyFriendlyName) as [st1 buf1].
  destruct (NT_SUCCESS st1); cbn [snd]; [auto with scan|].
  case_bool_decide; cbn [snd]; [auto with scan|].
  destruct (io_target_property w u DevicePropertyDeviceDescription) as [st2 buf2].
  destruct (NT_SUCCESS st2); cbn [snd]; auto with scan.
Qed.

Lemma resolve_events_of w u : Forall (scan_event_of [u]) (resolve_events w u).
Proof.
  unfold resolve_events. generalize (name_query_of w u).
  destruct (name_query w u) as [[st buf] evs]. cbn [snd]. intros Hq.
  apply Forall_app. split; [done|].
  destruct (NT_SUCCESS st); auto with scan.
Qed.

Lemma scan_events_of arrival w wnode l :
  Forall (scan_event_of l) (scan_events arrival w wnode l).
Proof.
  induction l as [|u l IH]; cbn [scan_events]; [constructor|].
  assert (Hu : [u] ⊆ u :: l)
    by (intros x; rewrite list_elem_of_singleton; intros ->; constructor).
  assert (Hl : l ⊆ u :: l) by (intros x Hx; by constructor).
  destruct (target_matches w wnode u && IsEqualGUID _ arrival);
    rewrite !Forall_app; repeat split;
    try (eapply Forall_impl;
         [first [apply probe_events_of | apply resolve_events_of
                | apply continue_events_of | apply IH]
         | intros e; apply scan_event_of_mono; assumption]).
Qed.

(** The scan reads two fields of the event and nothing else. *)
Lemma scan_events_header arrival w wnode1 wnode2 l :
  ProviderId (WnodeHeader wnode1) = ProviderId (WnodeHeader wnode2) →
  Guid (WnodeHeader wnode1) = Guid (WnodeHeader wnode2) →
  scan_events arrival w wnode1 l = scan_events arrival w wnode2 l.
Proof.
  intros Hp Hg. induction l as [|u l IH]; [done|]. cbn [scan_events].
  unfold continue_events, target_matches. by rewrite Hp, Hg, IH.
Qed.

(** ** Kernel object references *)

Lemma ob_dereference_reference h r : ob_dereference h (ob_reference h r) = r.
Proof.
  unfold ob_dereference, ob_reference. rewrite lookup_insert_eq.
  destruct (r !! h) as [p|] eqn:Hh; cbn [from_option].
  - destruct (Pos.succ p) eqn:Hp;
      try (by destruct (Pos.succ_not_1 p));
      rewrite <- Hp, Pos.pred_succ, insert_insert_eq; by apply insert_id.
  - by apply delete_insert_id.
Qed.

(** ** Registration *)

Lemma RegisterForWMINotification_body_run arrival w :
  RegisterForWMINotification_body arrival w =
    if NT_SUCCESS (wmi_open_status w) then
      if NT_SUCCESS (wmi_setcb_status w) then
        (wmi_setcb_status w,
         set_slot (Some (wmi_open_object w))
           (set_objects (ob_reference (wmi_open_object w) (ob_refs w))
              ({[wmi_open_object w]} ∪ wmi_notify w)
              (add_trace [EvOpenBlock arrival;
                          EvSetCallback (Some (wmi_open_object w))] w)))
      else
        (wmi_setcb_status w,
         set_slot None
           (set_objects (ob_refs w)
              (ob_notify_after (wmi_open_object w) (ob_refs w) (wmi_notify w))
              (add_trace [EvOpenBlock arrival;
                          EvSetCallback (Some (wmi_open_object w));
                          EvKdPrint (MsgUnableToRegister (wmi_setcb_status w));
                          EvDereference (Some (wmi_open_object w))] w)))
    else
      (wmi_open_status w,
       set_slot None
         (add_trace [EvOpenBlock arrival;
                     EvKdPrint (MsgUnableToOpenBlock (wmi_open_status w))] w)).
Proof.
  unfold RegisterForWMINotification_body. run.
  destruct (NT_SUCCESS (wmi_open_status w)) eqn:Ho; use Ho.
  - destruct (NT_SUCCESS (wmi_setcb_status w)) eqn:Hc; use Hc.
    + norm. reflexivity.
    + rewrite ob_dereference_reference. norm. reflexivity.
  - destruct (wmi_open_failed_out w); run; norm; reflexivity.
Qed.

Lemma UnregisterForWMINotification_run w :
  UnregisterForWMINotification w =
    match WMIDeviceArrivalNotificationObject w with
    | None => ((), w)
    | Some h =>
        ((), set_slot None
               (set_objects (ob_dereference h (ob_refs w))
                  (ob_notify_after h (ob_dereference h (ob_refs w)) (wmi_notify w))
                  (add_trace [EvDereference (Some h)] w)))
    end.
Proof.
  unfold UnregisterForWMINotification. run.
  destruct (WMIDeviceArrivalNotificationObject w) as [h|] eqn:Hslot.
  - rewrite bool_decide_true by done. run. norm. reflexivity.
  - rewrite bool_decide_false by (intros H; by apply H). reflexivity.
Qed.

(** ** The claims *)

(** C1.  An event of the device-arrival class comes in while the
    collection holds the items [pre], then [t], then [post], in this
    order, where no item of [pre] matches the event (it is not Started,
    or has no device object, or has another provider id) and [t] is the
    first that does (Started, with the provider id of the event).
    Between taking and releasing the lock the callback then does one
    pass that continues per item of [pre], probes [t] and resolves its
    name: the name is printed as having fired the arrival event and its
    buffer deleted, or the failure is printed.  The scan stops there.  An
    item of [pre] that is not Started is skipped after its state has been
    read and the not-opened message printed.  Every target named by an
    event of the scan is in [pre] or is [t]: no item of [post] is looked
    at. *)
Theorem WmiNotificationCallback_first_started_match
    (arrival : GUID) (wnode : WNODE_SINGLE_INSTANCE) (w : World)
    (pre : list WDFIOTARGET) (t : WDFIOTARGET) (post : list WDFIOTARGET) :
  Guid (WnodeHeader wnode) = arrival →
  TargetDeviceCollection w = pre ++ t :: post →
  Forall (λ u, target_matches w wnode u = false) pre →
  target_matches w wnode t = true →
  trace (exec (WmiNotificationCallback arrival wnode) w) =
    trace w ++ [EvLockAcquire]
      ++ (flat_map (continue_events w wnode) pre
            ++ probe_events w t ++ resolve_events w t)
      ++ [EvLockRelease]
  ∧ (∀ u, u ∈ pre → io_target_state w u ≠ WdfIoTargetStarted →
       continue_events w wnode u =
         [EvGetState u; EvKdPrint (MsgTargetNotOpened u)])
  ∧ Forall (scan_event_of (pre ++ [t]))
      (flat_map (continue_events w wnode) pre
         ++ probe_events w t ++ resolve_events w t).
Proof.
  intros Hg Hcoll Hpre Ht. repeat split.
  - unfold exec. rewrite WmiNotificationCallback_run. cbn [snd set_lock trace add_trace].
    by rewrite Hcoll, (scan_events_first_match arrival w wnode pre t post Hg Hpre Ht).
  - intros u _ Hu. unfold continue_events, probe_events.
    by rewrite bool_decide_false.
  - rewrite <- (scan_events_first_match arrival w wnode pre t [] Hg Hpre Ht).
    apply scan_events_of.
Qed.

(** C2.  Name resolution starts with the query of the friendly name and
    makes it once.  When that query succeeds there is no other query and
    the caller gets its status and a buffer that holds the friendly name.
    The device description is queried if and only if the friendly-name
    query fails with a status other than STATUS_INSUFFICIENT_RESOURCES;
    the caller then gets what the second query answers: its status, and
    on success a buffer that holds the device description, on failure no
    buffer.  When the friendly-name query answers
    STATUS_INSUFFICIENT_RESOURCES, that status is what the caller gets,
    with no buffer. *)
Theorem GetTargetFriendlyName_fallback (t : WDFIOTARGET) (w : World) :
  ∃ rest,
    trace (exec (GetTargetFriendlyName t) w) =
      trace w ++ (EvQueryProperty t DevicePropertyFriendlyName :: rest)
    ∧ (EvQueryProperty t DevicePropertyFriendlyName ∉ rest)
    ∧ ((EvQueryProperty t DevicePropertyDeviceDescription ∈ rest) ↔
         NT_SUCCESS (io_target_property w t DevicePropertyFriendlyName).1 = false
         ∧ (io_target_property w t DevicePropertyFriendlyName).1
             ≠ STATUS_INSUFFICIENT_RESOURCES)
    ∧ ((io_target_property w t DevicePropertyFriendlyName).1
         = STATUS_INSUFFICIENT_RESOURCES →
       eval (GetTargetFriendlyName t) w = (STATUS_INSUFFICIENT_RESOURCES, None))
    ∧ (NT_SUCCESS (io_target_property w t DevicePropertyFriendlyName).1 = true →
       ∃ m,
         eval (GetTargetFriendlyName t) w
           = ((io_target_property w t DevicePropertyFriendlyName).1, Some m)
         ∧ wdf_memory (exec (GetTargetFriendlyName t) w) !! m
             = Some (io_target_property w t DevicePropertyFriendlyName).2)
    ∧ (NT_SUCCESS (io_target_property w t DevicePropertyFriendlyName).1 = false →
       (io_target_property w t DevicePropertyFriendlyName).1
         ≠ STATUS_INSUFFICIENT_RESOURCES →
       if NT_SUCCESS (io_target_property w t DevicePropertyDeviceDescription).1
       then
         ∃ m,
           eval (GetTargetFriendlyName t) w
             = ((io_target_property w t DevicePropertyDeviceDescription).1, Some m)
           ∧ wdf_memory (exec (GetTargetFriendlyName t) w) !! m
               = Some (io_target_property w t DevicePropertyDeviceDescription).2
       else
         eval (GetTargetFriendlyName t) w
           = ((io_target_property w t DevicePropertyDeviceDescription).1, None)).
Proof.
  unfold exec, eval. rewrite GetTargetFriendlyName_run. unfold name_query.
  destruct (io_target_property w t DevicePropertyFriendlyName) as [st1 buf1].
  cbn [fst snd].
  destruct (NT_SUCCESS st1) eqn:S1.
  - rewrite ?S1. eexists. cbn [fst snd trace set_memory add_trace wdf_memory].
    split; [done|]. rewrite !elem_of_nil.
    repeat split;
      try (intros ->; by rewrite NT_SUCCESS_INSUFFICIENT_RESOURCES in S1);
      try (intros _; eexists; split; [done|apply lookup_insert_eq]);
      intuition congruence.
  - case_bool_decide as Hir.
    + rewrite ?S1. eexists. cbn [fst snd trace add_trace].
      split; [done|]. rewrite !list_elem_of_singleton.
      repeat split; intuition congruence.
    + destruct (io_target_property w t DevicePropertyDeviceDescription)
        as [st2 buf2].
      cbn [fst snd].
      destruct (NT_SUCCESS st2) eqn:S2; rewrite ?S2; eexists;
        cbn [fst snd trace set_memory add_trace wdf_memory];
        (split; [done|]); rewrite ?elem_of_cons, ?elem_of_nil;
        repeat split;
        try (intros _ _; eexists; split; [done|apply lookup_insert_eq]);
        intuition congruence.
Qed.

(** C3.  Whatever the event and the collection, the callback takes the
    lock first and releases it last, and does neither in between; the
    lock is free when the callback returns. *)
Theorem WmiNotificationCallback_lock_once
    (arrival : GUID) (wnode : WNODE_SINGLE_INSTANCE) (w : World) :
  ∃ mid,
    trace (exec (WmiNotificationCallback arrival wnode) w) =
      trace w ++ [EvLockAcquire] ++ mid ++ [EvLockRelease]
    ∧ (EvLockAcquire ∉ mid)
    ∧ (EvLockRelease ∉ mid)
    ∧ TargetDeviceCollectionLock
        (exec (WmiNotificationCallback arrival wnode) w) = false.
Proof.
  exists (scan_events arrival w wnode (TargetDeviceCollection w)).
  unfold exec. rewrite WmiNotificationCallback_run.
  cbn [snd set_lock trace add_trace TargetDeviceCollectionLock].
  pose proof (scan_events_of arrival w wnode (TargetDeviceCollection w)) as Hs.
  rewrite Forall_forall in Hs.
  repeat split; try done; intros Hin; exact (Hs _ Hin).
Qed.

(** C4.  Take a call of [RegisterForWMINotification] that returns.
    If IoWMIOpenBlock fails, the status returned is the status of
    IoWMIOpenBlock, the slot is NULL whatever the failed call left in it,
    and nothing was opened: the reference counts of kernel objects are
    those at the call.  If the block is opened and
    IoWMISetNotificationCallback fails, the status returned is the status
    of IoWMISetNotificationCallback, the block that was opened has been
    dereferenced, the slot is NULL and the reference counts are those at
    the call.  A failure status is returned in these two cases only, so
    whenever the status returned is a failure the slot is NULL and nothing
    is left open. *)
Theorem RegisterForWMINotification_failure
    (DBG : bool) (arrival : GUID) (w w' : World) (status : NTSTATUS) :
  RegisterForWMINotification DBG arrival w = Returned status w' →
  (NT_SUCCESS (wmi_open_status w) = false →
     status = wmi_open_status w
     ∧ NT_SUCCESS status = false
     ∧ WMIDeviceArrivalNotificationObject w' = None
     ∧ ob_refs w' = ob_refs w
     ∧ trace w' =
         trace w ++ [EvOpenBlock arrival;
                     EvKdPrint (MsgUnableToOpenBlock (wmi_open_status w))])
  ∧ (NT_SUCCESS (wmi_open_status w) = true →
     NT_SUCCESS (wmi_setcb_status w) = false →
     status = wmi_setcb_status w
     ∧ NT_SUCCESS status = false
     ∧ WMIDeviceArrivalNotificationObject w' = None
     ∧ ob_refs w' = ob_refs w
     ∧ trace w' =
         trace w ++ [EvOpenBlock arrival;
                     EvSetCallback (Some (wmi_open_object w));
                     EvKdPrint (MsgUnableToRegister (wmi_setcb_status w));
                     EvDereference (Some (wmi_open_object w))])
  ∧ (NT_SUCCESS status = false →
     WMIDeviceArrivalNotificationObject w' = None
     ∧ ob_refs w' = ob_refs w
     ∧ (NT_SUCCESS (wmi_open_status w) = false
        ∨ NT_SUCCESS (wmi_open_status w) = true
          ∧ NT_SUCCESS (wmi_setcb_status w) = false)).
Proof.
  unfold RegisterForWMINotification.
  destruct (ASSERT DBG _); [|discriminate].
  rewrite RegisterForWMINotification_body_run.
  destruct (NT_SUCCESS (wmi_open_status w)) eqn:Ho;
    [destruct (NT_SUCCESS (wmi_setcb_status w)) eqn:Hc|];
    intros [= <- <-].
  - split; [discriminate|]. split; [discriminate|]. intros Hst. congruence.
  - split; [discriminate|]. split.
    + intros _ _. by repeat split.
    + intros _. split; [done|]. split; [done|]. right. by split.
  - split.
    + intros _. by repeat split.
    + split; [discriminate|]. intros _. split; [done|]. split; [done|]. by left.
Qed.

(** C5.  [UnregisterForWMINotification] on a NULL slot changes nothing;
    on a slot that holds an object it dereferences the object and sets
    the slot to NULL.  The slot is NULL afterwards in both cases, so a
    second call changes nothing. *)
Theorem UnregisterForWMINotification_idempotent (w : World) :
  UnregisterForWMINotification w =
    match WMIDeviceArrivalNotificationObject w with
    | None => ((), w)
    | Some h =>
        ((), set_slot None
               (set_objects (ob_dereference h (ob_refs w))
                  (ob_notify_after h (ob_dereference h (ob_refs w)) (wmi_notify w))
                  (emit (EvDereference (Some h)) w)))
    end
  ∧ WMIDeviceArrivalNotificationObject (exec UnregisterForWMINotification w) = None
  ∧ UnregisterForWMINotification (exec UnregisterForWMINotification w)
      = ((), exec UnregisterForWMINotification w).
Proof.
  assert (Hnull :
    WMIDeviceArrivalNotificationObject (exec UnregisterForWMINotification w) = None).
  { unfold exec. rewrite UnregisterForWMINotification_run.
    by destruct (WMIDeviceArrivalNotificationObject w) eqn:Hslot. }
  repeat split; [|done|].
  - rewrite UnregisterForWMINotification_run.
    by destruct (WMIDeviceArrivalNotificationObject w).
  - rewrite (UnregisterForWMINotification_run (exec _ w)). by rewrite Hnull.
Qed.

(** C6.  For an event of another class than device arrival the loop runs
    to the end of the collection, one continuing pass per item.  A pass
    over a target that is Started and has the provider id of the event
    probes it, prints the unknown-event message and continues. *)
Theorem WmiNotificationCallback_unknown_event_continues
    (arrival : GUID) (wnode : WNODE_SINGLE_INSTANCE) (w : World) :
  Guid (WnodeHeader wnode) ≠ arrival →
  trace (exec (WmiNotificationCallback arrival wnode) w) =
    trace w ++ [EvLockAcquire]
      ++ flat_map (continue_events w wnode) (TargetDeviceCollection w)
      ++ [EvLockRelease]
  ∧ (∀ u, target_matches w wnode u = true →
       WmiNotificationCallback_body arrival wnode u w =
         (LoopContinue,
          add_trace (probe_events w u ++ [EvKdPrint MsgUnknownEvent]) w)).
Proof.
  intros Hg. split.
  - unfold exec. rewrite WmiNotificationCallback_run.
    cbn [snd set_lock trace add_trace].
    by rewrite scan_events_other_class.
  - intros u Hu. rewrite WmiNotificationCallback_body_run.
    unfold IsEqualGUID. rewrite bool_decide_false, andb_false_r by done.
    unfold continue_events. rewrite Hu.
    apply andb_true_iff in Hu as [Hs _]. by rewrite Hs.
Qed.

(** C7.  The world at the return of the callback is the world at its
    entry with events added to the trace and the lock free: the
    collection, what every target answers, the live WDFMEMORY objects, the
    notification slot and the kernel objects are the same. *)
Theorem WmiNotificationCallback_frame
    (arrival : GUID) (wnode : WNODE_SINGLE_INSTANCE) (w : World) :
  ∃ evs,
    exec (WmiNotificationCallback arrival wnode) w
      = set_lock false (add_trace evs w)
    ∧ TargetDeviceCollection (exec (WmiNotificationCallback arrival wnode) w)
        = TargetDeviceCollection w
    ∧ io_target_state (exec (WmiNotificationCallback arrival wnode) w)
        = io_target_state w
    ∧ io_target_devobj (exec (WmiNotificationCallback arrival wnode) w)
        = io_target_devobj w
    ∧ wdf_memory (exec (WmiNotificationCallback arrival wnode) w)
        = wdf_memory w.
Proof.
  eexists. unfold exec. rewrite WmiNotificationCallback_run. cbn [snd].
  repeat split.
Qed.

(** C8.  In a checked build a call of [RegisterForWMINotification] with
    an occupied slot stops at the assertion; with an empty slot the
    assertion passes, in any build, and the routine returns. *)
Theorem RegisterForWMINotification_assertion
    (DBG : bool) (arrival : GUID) (w : World) :
  (DBG = true → WMIDeviceArrivalNotificationObject w ≠ None →
     RegisterForWMINotification DBG arrival w = AssertionFailed w)
  ∧ (WMIDeviceArrivalNotificationObject w = None →
     ∃ status w', RegisterForWMINotification DBG arrival w = Returned status w').
Proof.
  unfold RegisterForWMINotification, ASSERT. split.
  - intros -> Hslot. by rewrite bool_decide_false.
  - intros Hslot. rewrite bool_decide_true by done.
    rewrite implb_true_r.
    destruct (RegisterForWMINotification_body arrival w) as [status w'].
    by exists status, w'.
Qed.

(** C9.  When the friendly-name query fails with a status other than
    STATUS_INSUFFICIENT_RESOURCES and the device-description query fails
    too, the caller gets the status of the device-description query and no
    buffer, and that status is the one printed: the status of the
    friendly-name query appears nowhere. *)
Theorem GetTargetFriendlyName_both_fail
    (t : WDFIOTARGET) (w : World)
    (st1 st2 : NTSTATUS) (buf1 buf2 : list WCHAR) :
  io_target_property w t DevicePropertyFriendlyName = (st1, buf1) →
  NT_SUCCESS st1 = false →
  st1 ≠ STATUS_INSUFFICIENT_RESOURCES →
  io_target_property w t DevicePropertyDeviceDescription = (st2, buf2) →
  NT_SUCCESS st2 = false →
  GetTargetFriendlyName t w =
    ((st2, None),
     add_trace [EvQueryProperty t DevicePropertyFriendlyName;
                EvQueryProperty t DevicePropertyDeviceDescription;
                EvKdPrint (MsgQueryPropertyReturned st2)] w).
Proof.
  intros H1 S1 Hir H2 S2. rewrite GetTargetFriendlyName_run. unfold name_query.
  rewrite H1, S1, (bool_decide_false _ Hir), H2, S2. by rewrite S2.
Qed.

(** C10.  Two events with the same provider id and the same GUID in their
    headers make the callback do the same: same result, same world, same
    trace.  In particular two events with equal headers do, whatever
    follows the header. *)
Theorem WmiNotificationCallback_header_only
    (arrival : GUID) (wnode1 wnode2 : WNODE_SINGLE_INSTANCE) :
  (ProviderId (WnodeHeader wnode1) = ProviderId (WnodeHeader wnode2) →
   Guid (WnodeHeader wnode1) = Guid (WnodeHeader wnode2) →
   ∀ w, WmiNotificationCallback arrival wnode1 w
        = WmiNotificationCallback arrival wnode2 w)
  ∧ (WnodeHeader wnode1 = WnodeHeader wnode2 →
     ∀ w, WmiNotificationCallback arrival wnode1 w
          = WmiNotificationCallback arrival wnode2 w).
Proof.
  assert (Hfields :
    ProviderId (WnodeHeader wnode1) = ProviderId (WnodeHeader wnode2) →
    Guid (WnodeHeader wnode1) = Guid (WnodeHeader wnode2) →
    ∀ w, WmiNotificationCallback arrival wnode1 w
         = WmiNotificationCallback arrival wnode2 w).
  { intros Hp Hg w. rewrite !WmiNotificationCallback_run.
    by rewrite (scan_events_header arrival w wnode1 wnode2 _ Hp Hg). }
  split; [exact Hfields|].
  intros Hh. apply Hfields; by rewrite Hh.
Qed.

(** ** The claims on the example *)

Lemma WmiNotificationCallback_first_started_match_witness :
  trace (exec (WmiNotificationCallback example_arrival
                 (example_event example_arrival [])) example_world) =
    [EvLockAcquire;
     EvGetState 1%positive; EvKdPrint (MsgTargetNotOpened 1%positive);
     EvGetState 2%positive; EvGetDeviceObject 2%positive; EvProviderId 12%positive;
     EvQueryProperty 2%positive DevicePropertyFriendlyName;
     EvQueryProperty 2%positive DevicePropertyDeviceDescription;
     EvKdPrint (MsgDeviceArrival [84; 50]);
     EvMemoryDelete (Some 1%positive);
     EvLockRelease].
Proof.
  apply (WmiNotificationCallback_first_started_match example_arrival
           (example_event example_arrival []) example_world
           [1%positive] 2%positive [3%positive]).
  - reflexivity.
  - reflexivity.
  - repeat constructor.
  - reflexivity.
Defined.

Lemma GetTargetFriendlyName_fallback_witness :
  eval (GetTargetFriendlyName 4%positive) example_world
    = (STATUS_INSUFFICIENT_RESOURCES, None)
  ∧ (∃ m,
       eval (GetTargetFriendlyName 2%positive) example_world
         = (STATUS_SUCCESS, Some m)
       ∧ wdf_memory (exec (GetTargetFriendlyName 2%positive) example_world) !! m
           = Some [84; 50; 0; 7])
  ∧ eval (GetTargetFriendlyName 1%positive) example_world
      = (STATUS_UNSUCCESSFUL, None)
  ∧ (∃ m,
       eval (GetTargetFriendlyName 3%positive) example_world
         = (STATUS_SUCCESS, Some m)
       ∧ wdf_memory (exec (GetTargetFriendlyName 3%positive) example_world) !! m
           = Some [84; 51; 0]).
Proof.
  split; [|split; [|split]].
  - destruct (GetTargetFriendlyName_fallback 4%positive example_world)
      as (rest & _ & _ & _ & Hir & _).
    apply Hir. reflexivity.
  - destruct (GetTargetFriendlyName_fallback 2%positive example_world)
      as (rest & _ & _ & _ & _ & _ & Hfallback).
    apply Hfallback; [reflexivity|discriminate].
  - destruct (GetTargetFriendlyName_fallback 1%positive example_world)
      as (rest & _ & _ & _ & _ & _ & Hfallback).
    apply Hfallback; [reflexivity|discriminate].
  - destruct (GetTargetFriendlyName_fallback 3%positive example_world)
      as (rest & _ & _ & _ & _ & Hfriendly & _).
    apply Hfriendly. reflexivity.
Defined.

Lemma RegisterForWMINotification_failure_witness :
  (eval (RegisterForWMINotification_body example_arrival) example_world
     = STATUS_UNSUCCESSFUL
   ∧ WMIDeviceArrivalNotificationObject
       (exec (RegisterForWMINotification_body example_arrival) example_world)
       = None
   ∧ ob_refs (exec (RegisterForWMINotification_body example_arrival) example_world)
       = ob_refs example_world)
  ∧ (eval (RegisterForWMINotification_body example_arrival) example_world_closed
       = STATUS_UNSUCCESSFUL
     ∧ WMIDeviceArrivalNotificationObject
         (exec (RegisterForWMINotification_body example_arrival)
            example_world_closed)
         = None
     ∧ ob_refs (exec (RegisterForWMINotification_body example_arrival)
                  example_world_closed)
         = ob_refs example_world_closed).
Proof.
  split.
  - destruct (RegisterForWMINotification_failure true example_arrival example_world
                (exec (RegisterForWMINotification_body example_arrival)
                   example_world)
                (eval (RegisterForWMINotification_body example_arrival)
                   example_world))
      as (_ & Hcallback & _).
    + vm_compute. reflexivity.
    + destruct Hcallback as (Hstatus & _ & Hslot & Hrefs & _).
      * reflexivity.
      * reflexivity.
      * split; [exact Hstatus|]. split; assumption.
  - destruct (RegisterForWMINotification_failure true example_arrival
                example_world_closed
                (exec (RegisterForWMINotification_body example_arrival)
                   example_world_closed)
                (eval (RegisterForWMINotification_body example_arrival)
                   example_world_closed))
      as (Hopen & _).
    + vm_compute. reflexivity.
    + destruct Hopen as (Hstatus & _ & Hslot & Hrefs & _).
      * reflexivity.
      * split; [exact Hstatus|]. split; assumption.
Defined.

Lemma WmiNotificationCallback_unknown_event_continues_witness :
  trace (exec (WmiNotificationCallback example_arrival
                 (example_event example_other [])) example_world) =
    [EvLockAcquire;
     EvGetState 1%positive; EvKdPrint (MsgTargetNotOpened 1%positive);
     EvGetState 2%positive; EvGetDeviceObject 2%positive; EvProviderId 12%positive;
     EvKdPrint MsgUnknownEvent;
     EvGetState 3%positive; EvGetDeviceObject 3%positive; EvProviderId 13%positive;
     EvKdPrint MsgUnknownEvent;
     EvLockRelease].
Proof.
  apply (WmiNotificationCallback_unknown_event_continues example_arrival
           (example_event example_other []) example_world).
  discriminate.
Defined.

Lemma RegisterForWMINotification_assertion_witness :
  RegisterForWMINotification true example_arrival
    (set_slot (Some 77%positive) example_world)
    = AssertionFailed (set_slot (Some 77%positive) example_world)
  ∧ ∃ status w',
      RegisterForWMINotification true example_arrival example_world
        = Returned status w'.
Proof.
  split.
  - apply (RegisterForWMINotification_assertion true example_arrival
             (set_slot (Some 77%positive) example_world)).
    + reflexivity.
    + discriminate.
  - apply (RegisterForWMINotification_assertion true example_arrival example_world).
    reflexivity.
Defined.

Lemma GetTargetFriendlyName_both_fail_witness :
  GetTargetFriendlyName 1%positive example_world =
    ((STATUS_UNSUCCESSFUL, None),
     add_trace [EvQueryProperty 1%positive DevicePropertyFriendlyName;
                EvQueryProperty 1%positive DevicePropertyDeviceDescription;
                EvKdPrint (MsgQueryPropertyReturned STATUS_UNSUCCESSFUL)]
       example_world).
Proof.
  apply (GetTargetFriendlyName_both_fail 1%positive example_world
           STATUS_OBJECT_NAME_NOT_FOUND STATUS_UNSUCCESSFUL [] []).
  - reflexivity.
  - reflexivity.
  - discriminate.
  - reflexivity.
  - reflexivity.
Defined.

Lemma WmiNotificationCallback_header_only_witness :
  WmiNotificationCallback example_arrival
    (example_event example_arrival [1; 2; 3]) example_world
  = WmiNotificationCallback example_arrival
      (example_event example_arrival []) example_world.
Proof.
  apply (WmiNotificationCallback_header_only example_arrival
           (example_event example_arrival [1; 2; 3])
           (example_event example_arrival [])).
  reflexivity.
Defined.

(** ** Further properties *)

Lemma emitted_trace {A} (m : M A) w evs :
  trace (exec m w) = trace w ++ evs → emitted m w = evs.
Proof. unfold emitted. intros ->. apply drop_app_length. Qed.

Lemma emitted_WmiNotificationCallback arrival wnode w :
  emitted (WmiNotificationCallback arrival wnode) w =
    [EvLockAcquire]
      ++ scan_events arrival w wnode (TargetDeviceCollection w)
      ++ [EvLockRelease].
Proof.
  apply emitted_trace. unfold exec. by rewrite WmiNotificationCallback_run.
Qed.

Lemma emitted_GetTargetFriendlyName t w :
  emitted (GetTargetFriendlyName t) w = (name_query w t).2.
Proof.
  apply emitted_trace. unfold exec. rewrite GetTargetFriendlyName_run.
  destruct (name_query w t) as [[st buf] evs]. by destruct (NT_SUCCESS st).
Qed.

Lemma count_events_app p l1 l2 :
  count_events p (l1 ++ l2) = (count_events p l1 + count_events p l2)%nat.
Proof. induction l1 as [|e l1 IH]; cbn; [done|]. rewrite IH. lia. Qed.

Lemma scan_event_ok_mono arrival w wnode l l' e :
  l ⊆ l' → scan_event_ok arrival w wnode l e → scan_event_ok arrival w wnode l' e.
Proof.
  intros Hl. destruct e as [| | | | | | | | | |[]]; cbn; try done; firstorder.
Qed.

Lemma elem_of_one (u : WDFIOTARGET) : u ∈ [u].
Proof. by apply list_elem_of_singleton. Qed.

#[local] Hint Resolve elem_of_one : scan.

Lemma probe_events_ok arrival w wnode u :
  Forall (scan_event_ok arrival w wnode [u]) (probe_events w u).
Proof.
  unfold probe_events.
  case_bool_decide as Hs; [|repeat constructor; cbn; auto with scan].
  destruct (io_target_devobj w u) as [d|] eqn:Hd;
    repeat constructor; cbn; eauto 6 with scan.
Qed.

Lemma continue_events_ok arrival w wnode u :
  (target_matches w wnode u = true → Guid (WnodeHeader wnode) ≠ arrival) →
  Forall (scan_event_ok arrival w wnode [u]) (continue_events w wnode u).
Proof.
  intros Hg. unfold continue_events.
  apply Forall_app. split; [apply probe_events_ok|].
  case_bool_decide as Hs; [|repeat constructor; cbn; auto with scan].
  destruct (target_matches w wnode u) eqn:Hm; repeat constructor; cbn;
    eauto 6 with scan.
Qed.

Lemma resolve_events_ok arrival w wnode u :
  target_matches w wnode u = true →
  Guid (WnodeHeader wnode) = arrival →
  Forall (scan_event_ok arrival w wnode [u]) (resolve_events w u).
Proof.
  intros Hm Hg. unfold resolve_events, name_query.
  assert (Hfresh : ∃ h, Some (fresh (dom (wdf_memory w))) = Some h
                        ∧ wdf_memory w !! h = None).
  { eexists. split; [done|]. apply not_elem_of_dom, is_fresh. }
  assert (Hu : ∃ u', u' ∈ [u] ∧ target_matches w wnode u' = true)
    by eauto with scan.
  destruct (io_target_property w u DevicePropertyFriendlyName) as [st1 buf1].
  destruct (NT_SUCCESS st1) eqn:S1;
    [rewrite ?S1; repeat constructor; cbn; auto with scan|].
  case_bool_decide; [rewrite ?S1; repeat constructor; cbn; auto with scan|].
  destruct (io_target_property w u DevicePropertyDeviceDescription) as [st2 buf2].
  destruct (NT_SUCCESS st2) eqn:S2; rewrite ?S2;
    repeat constructor; cbn; auto with scan.
Qed.

Lemma scan_events_ok arrival w wnode l :
  Forall (scan_event_ok arrival w wnode l) (scan_events arrival w wnode l).
Proof.
  induction l as [|u l IH]; cbn [scan_events]; [constructor|].
  assert (Hu : [u] ⊆ u :: l)
    by (intros x; rewrite list_elem_of_singleton; intros ->; constructor).
  assert (Hl : l ⊆ u :: l) by (intros x Hx; by constructor).
  assert (Hone : ∀ evs, Forall (scan_event_ok arrival w wnode [u]) evs →
                        Forall (scan_event_ok arrival w wnode (u :: l)) evs).
  { intros evs Hevs. eapply Forall_impl; [exact Hevs|].
    intros e. by apply scan_event_ok_mono. }
  assert (Hrest : Forall (scan_event_ok arrival w wnode (u :: l))
                    (scan_events arrival w wnode l)).
  { eapply Forall_impl; [exact IH|]. intros e. by apply scan_event_ok_mono. }
  destruct (target_matches w wnode u) eqn:Hm; cbn [andb].
  - unfold IsEqualGUID. case_bool_decide as Hg.
    + apply Forall_app. split; apply Hone;
        [apply probe_events_ok|by apply resolve_events_ok].
    + apply Forall_app. split; [|done]. apply Hone. by apply continue_events_ok.
  - apply Forall_app. split; [|done]. apply Hone.
    apply continue_events_ok. by rewrite Hm.
Qed.

Lemma emitted_WmiNotificationCallback_ok arrival wnode w e :
  e ∈ emitted (WmiNotificationCallback arrival wnode) w →
  e = EvLockAcquire ∨ e = EvLockRelease
  ∨ scan_event_ok arrival w wnode (TargetDeviceCollection w) e.
Proof.
  rewrite emitted_WmiNotificationCallback, !elem_of_app, !list_elem_of_singleton.
  intros [?|[Hin|?]]; auto. right. right.
  exact (proj1 (Forall_forall _ _) (scan_events_ok arrival w wnode _) _ Hin).
Qed.

Lemma RegisterForWMINotification_returned DBG arrival w status w' :
  RegisterForWMINotification DBG arrival w = Returned status w' →
  RegisterForWMINotification_body arrival w = (status, w').
Proof.
  unfold RegisterForWMINotification.
  destruct (ASSERT DBG _); [|discriminate].
  destruct (RegisterForWMINotification_body arrival w). by intros [= -> ->].
Qed.

Lemma RegisterForWMINotification_body_success arrival w status w' :
  RegisterForWMINotification_body arrival w = (status, w') →
  NT_SUCCESS status = true →
  status = wmi_setcb_status w
  ∧ w' = set_slot (Some (wmi_open_object w))
           (set_objects (ob_reference (wmi_open_object w) (ob_refs w))
              ({[wmi_open_object w]} ∪ wmi_notify w)
              (add_trace [EvOpenBlock arrival;
                          EvSetCallback (Some (wmi_open_object w))] w)).
Proof.
  rewrite RegisterForWMINotification_body_run.
  destruct (NT_SUCCESS (wmi_open_status w)) eqn:Ho;
    [destruct (NT_SUCCESS (wmi_setcb_status w)) eqn:Hc|];
    intros [= <- <-] Hst; try congruence; by split.
Qed.

Lemma RegisterForWMINotification_body_failure_slot arrival w status w' :
  RegisterForWMINotification_body arrival w = (status, w') →
  NT_SUCCESS status = false →
  WMIDeviceArrivalNotificationObject w' = None.
Proof.
  rewrite RegisterForWMINotification_body_run.
  destruct (NT_SUCCESS (wmi_open_status w)) eqn:Ho;
    [destruct (NT_SUCCESS (wmi_setcb_status w)) eqn:Hc|];
    intros [= <- <-] Hst; try congruence; done.
Qed.

Lemma UnregisterForWMINotification_slot w :
  WMIDeviceArrivalNotificationObject (exec UnregisterForWMINotification w) = None.
Proof.
  unfold exec. rewrite UnregisterForWMINotification_run.
  by destruct (WMIDeviceArrivalNotificationObject w) eqn:Hslot.
Qed.

(** X1.  When [RegisterForWMINotification] returns a success status, the
    slot holds the data block object that IoWMIOpenBlock opened, that
    object has one reference more than before and has the callback
    installed, the status is the one of IoWMISetNotificationCallback, and
    nothing was printed or dereferenced. *)
Theorem RegisterForWMINotification_success
    (DBG : bool) (arrival : GUID) (w w' : World) (status : NTSTATUS) :
  RegisterForWMINotification DBG arrival w = Returned status w' →
  NT_SUCCESS status = true →
  WMIDeviceArrivalNotificationObject w' = Some (wmi_open_object w)
  ∧ ob_refs w' = ob_reference (wmi_open_object w) (ob_refs w)
  ∧ wmi_open_object w ∈ wmi_notify w'
  ∧ status = wmi_setcb_status w
  ∧ trace w' = trace w ++ [EvOpenBlock arrival;
                           EvSetCallback (Some (wmi_open_object w))].
Proof.
  intros Hreg%RegisterForWMINotification_returned Hst.
  destruct (RegisterForWMINotification_body_success _ _ _ _ Hreg Hst) as [-> ->].
  repeat split. cbn. apply elem_of_union_l, elem_of_singleton. done.
Qed.

(** X2.  Registration followed by unregistration gives back the
    reference: after a successful [RegisterForWMINotification],
    [UnregisterForWMINotification] dereferences the object that was
    opened and nothing else, and leaves the slot NULL and the reference
    counts of kernel objects as they were before the registration. *)
Theorem RegisterForWMINotification_then_Unregister
    (DBG : bool) (arrival : GUID) (w w' : World) (status : NTSTATUS) :
  RegisterForWMINotification DBG arrival w = Returned status w' →
  NT_SUCCESS status = true →
  WMIDeviceArrivalNotificationObject (exec UnregisterForWMINotification w') = None
  ∧ ob_refs (exec UnregisterForWMINotification w') = ob_refs w
  ∧ emitted UnregisterForWMINotification w'
      = [EvDereference (Some (wmi_open_object w))].
Proof.
  intros Hreg%RegisterForWMINotification_returned Hst.
  destruct (RegisterForWMINotification_body_success _ _ _ _ Hreg Hst) as [_ ->].
  unfold emitted, exec. rewrite UnregisterForWMINotification_run.
  cbn [snd set_slot set_objects add_trace WMIDeviceArrivalNotificationObject
       ob_refs trace].
  by rewrite ob_dereference_reference, drop_app_length.
Qed.

(** X3.  After a failed registration the unregistration has nothing to
    do: it returns the world unchanged. *)
Theorem UnregisterForWMINotification_after_failure
    (DBG : bool) (arrival : GUID) (w w' : World) (status : NTSTATUS) :
  RegisterForWMINotification DBG arrival w = Returned status w' →
  NT_SUCCESS status = false →
  UnregisterForWMINotification w' = ((), w').
Proof.
  intros Hreg%RegisterForWMINotification_returned Hst.
  rewrite UnregisterForWMINotification_run.
  by rewrite (RegisterForWMINotification_body_failure_slot _ _ _ _ Hreg Hst).
Qed.

(** X4.  In a checked build a second registration right after a
    successful one stops at the assertion; after an unregistration the
    assertion passes again. *)
Theorem RegisterForWMINotification_twice
    (arrival : GUID) (w w' : World) (status : NTSTATUS) :
  RegisterForWMINotification true arrival w = Returned status w' →
  NT_SUCCESS status = true →
  RegisterForWMINotification true arrival w' = AssertionFailed w'
  ∧ RegisterForWMINotification true arrival
      (exec UnregisterForWMINotification w')
    ≠ AssertionFailed (exec UnregisterForWMINotification w').
Proof.
  intros Hreg%RegisterForWMINotification_returned Hst.
  destruct (RegisterForWMINotification_body_success _ _ _ _ Hreg Hst) as [_ Hw'].
  split.
  - rewrite Hw'. unfold RegisterForWMINotification, ASSERT.
    cbn [set_slot WMIDeviceArrivalNotificationObject].
    by rewrite bool_decide_false.
  - unfold RegisterForWMINotification, ASSERT.
    rewrite UnregisterForWMINotification_slot.
    rewrite bool_decide_true by done. cbn [implb].
    by destruct (RegisterForWMINotification_body arrival (exec _ w')).
Qed.

(** X5.  In a free build nothing looks at what the slot held: registering
    over an occupied slot gives the same status and the same world as
    registering over an empty one.  The object that was in the slot is
    overwritten and never dereferenced. *)
Theorem RegisterForWMINotification_overwrites_slot
    (arrival : GUID) (v : option PVOID) (w : World) :
  RegisterForWMINotification false arrival (set_slot v w)
    = RegisterForWMINotification false arrival w.
Proof.
  unfold RegisterForWMINotification, ASSERT. cbn [implb].
  rewrite !RegisterForWMINotification_body_run.
  cbn [set_slot wmi_open_status wmi_setcb_status].
  destruct (NT_SUCCESS (wmi_open_status w));
    [destruct (NT_SUCCESS (wmi_setcb_status w))|]; norm; reflexivity.
Qed.

(** X6.  [GetTargetFriendlyName] hands out a buffer exactly when it
    succeeds.  On success the handle it returns was not live before and
    is the one new WDFMEMORY object; on failure it returns no handle and
    the live WDFMEMORY objects are those of before: a failed first query
    leaves nothing behind. *)
Theorem GetTargetFriendlyName_buffer (t : WDFIOTARGET) (w : World) :
  if NT_SUCCESS (eval (GetTargetFriendlyName t) w).1 then
    ∃ m buf,
      (eval (GetTargetFriendlyName t) w).2 = Some m
      ∧ wdf_memory w !! m = None
      ∧ wdf_memory (exec (GetTargetFriendlyName t) w)
          = <[m := buf]> (wdf_memory w)
  else
    (eval (GetTargetFriendlyName t) w).2 = None
    ∧ wdf_memory (exec (GetTargetFriendlyName t) w) = wdf_memory w.
Proof.
  unfold eval, exec. rewrite GetTargetFriendlyName_run.
  destruct (name_query w t) as [[st buf] evs].
  destruct (NT_SUCCESS st) eqn:Hst; cbn [fst snd]; rewrite Hst; [|done].
  eexists _, buf. repeat split. apply not_elem_of_dom, is_fresh.
Qed.

(** X7.  The fallback works: when the friendly-name query fails with a
    status other than STATUS_INSUFFICIENT_RESOURCES and the
    device-description query succeeds, the caller gets the status of the
    second query and a buffer that holds the device description, and
    nothing is printed. *)
Theorem GetTargetFriendlyName_description
    (t : WDFIOTARGET) (w : World)
    (st1 st2 : NTSTATUS) (buf1 buf2 : list WCHAR) :
  io_target_property w t DevicePropertyFriendlyName = (st1, buf1) →
  NT_SUCCESS st1 = false →
  st1 ≠ STATUS_INSUFFICIENT_RESOURCES →
  io_target_property w t DevicePropertyDeviceDescription = (st2, buf2) →
  NT_SUCCESS st2 = true →
  ∃ m,
    eval (GetTargetFriendlyName t) w = (st2, Some m)
    ∧ wdf_memory (exec (GetTargetFriendlyName t) w) !! m = Some buf2
    ∧ emitted (GetTargetFriendlyName t) w =
        [EvQueryProperty t DevicePropertyFriendlyName;
         EvQueryProperty t DevicePropertyDeviceDescription].
Proof.
  intros H1 S1 Hir H2 S2. rewrite emitted_GetTargetFriendlyName.
  unfold eval, exec. rewrite GetTargetFriendlyName_run. unfold name_query.
  rewrite H1, S1, (bool_decide_false _ Hir), H2, S2, S2.
  eexists. repeat split. cbn. apply lookup_insert_eq.
Qed.

(** X8.  A target that has a friendly name is named by it: when the
    friendly-name query succeeds the caller gets its status and a buffer
    that holds the friendly name, and that query is the only thing done. *)
Theorem GetTargetFriendlyName_friendly
    (t : WDFIOTARGET) (w : World) (st1 : NTSTATUS) (buf1 : list WCHAR) :
  io_target_property w t DevicePropertyFriendlyName = (st1, buf1) →
  NT_SUCCESS st1 = true →
  ∃ m,
    eval (GetTargetFriendlyName t) w = (st1, Some m)
    ∧ wdf_memory (exec (GetTargetFriendlyName t) w) !! m = Some buf1
    ∧ emitted (GetTargetFriendlyName t) w =
        [EvQueryProperty t DevicePropertyFriendlyName].
Proof.
  intros H1 S1. rewrite emitted_GetTargetFriendlyName.
  unfold eval, exec. rewrite GetTargetFriendlyName_run. unfold name_query.
  rewrite H1, S1, S1.
  eexists. repeat split. cbn. apply lookup_insert_eq.
Qed.

(** X9.  [GetTargetFriendlyName] prints if and only if it fails, and what
    it prints is the status it returns. *)
Theorem GetTargetFriendlyName_prints_failure
    (t : WDFIOTARGET) (w : World) (msg : dbg_msg) :
  EvKdPrint msg ∈ emitted (GetTargetFriendlyName t) w ↔
    NT_SUCCESS (eval (GetTargetFriendlyName t) w).1 = false
    ∧ msg = MsgQueryPropertyReturned (eval (GetTargetFriendlyName t) w).1.
Proof.
  rewrite emitted_GetTargetFriendlyName.
  unfold eval. rewrite GetTargetFriendlyName_run. unfold name_query.
  destruct (io_target_property w t DevicePropertyFriendlyName) as [st1 buf1].
  destruct (NT_SUCCESS st1) eqn:S1.
  - rewrite S1. cbn [fst snd]. rewrite list_elem_of_singleton.
    intuition congruence.
  - case_bool_decide.
    + rewrite S1. cbn [fst snd].
      rewrite !elem_of_cons, elem_of_nil. intuition congruence.
    + destruct (io_target_property w t DevicePropertyDeviceDescription)
        as [st2 buf2].
      destruct (NT_SUCCESS st2) eqn:S2; rewrite S2; cbn [fst snd];
        rewrite !elem_of_cons, elem_of_nil; intuition congruence.
Qed.

(** *** Counting the events of a scan *)

Lemma count_events_none p l :
  Forall (λ e, p e = false) l → count_events p l = 0%nat.
Proof. induction 1 as [|e l He _ IH]; cbn; [done|]. by rewrite He, IH. Qed.

Lemma probe_events_no_resolution w u :
  Forall (λ e, is_resolution_event e = false) (probe_events w u).
Proof.
  unfold probe_events.
  case_bool_decide; [destruct (io_target_devobj w u)|]; by repeat constructor.
Qed.

Lemma continue_events_no_resolution w wnode u :
  Forall (λ e, is_resolution_event e = false) (continue_events w wnode u).
Proof.
  unfold continue_events. apply Forall_app. split; [apply probe_events_no_resolution|].
  case_bool_decide; [destruct (target_matches w wnode u)|]; by repeat constructor.
Qed.

Lemma flat_map_continue_events_no_resolution w wnode l :
  Forall (λ e, is_resolution_event e = false)
    (flat_map (continue_events w wnode) l).
Proof.
  induction l as [|u l IH]; cbn [flat_map]; [constructor|].
  apply Forall_app. split; [apply continue_events_no_resolution|done].
Qed.

Lemma no_resolution_count p l :
  (∀ e, p e = true → is_resolution_event e = true) →
  Forall (λ e, is_resolution_event e = false) l →
  count_events p l = 0%nat.
Proof.
  intros Hp Hl. apply count_events_none.
  eapply Forall_impl; [exact Hl|]. intros e He. cbn in He.
  destruct (p e) eqn:Hpe; [|done]. apply Hp in Hpe. congruence.
Qed.

Lemma is_name_resolution_resolution e :
  is_name_resolution e = true → is_resolution_event e = true.
Proof. by destruct e as [| | | | | | | | | |[]]. Qed.

Lemma is_arrival_print_resolution e :
  is_arrival_print e = true → is_resolution_event e = true.
Proof. by destruct e as [| | | | | | | | | |[]]. Qed.

Lemma resolve_events_count w u :
  count_events is_name_resolution (resolve_events w u) = 1%nat
  ∧ (count_events is_arrival_print (resolve_events w u) ≤ 1)%nat.
Proof.
  unfold resolve_events, name_query.
  destruct (io_target_property w u DevicePropertyFriendlyName) as [st1 buf1].
  destruct (NT_SUCCESS st1) eqn:S1; [rewrite ?S1; cbn; lia|].
  case_bool_decide; [rewrite ?S1; cbn; lia|].
  destruct (io_target_property w u DevicePropertyDeviceDescription) as [st2 buf2].
  destruct (NT_SUCCESS st2) eqn:S2; rewrite ?S2; cbn; lia.
Qed.

Lemma scan_events_count arrival w wnode l :
  (count_events is_name_resolution (scan_events arrival w wnode l) ≤ 1)%nat
  ∧ (count_events is_arrival_print (scan_events arrival w wnode l) ≤ 1)%nat.
Proof.
  induction l as [|u l [IH1 IH2]]; cbn [scan_events]; [cbn; lia|].
  destruct (target_matches w wnode u && IsEqualGUID _ arrival);
    rewrite !count_events_app.
  - destruct (resolve_events_count w u) as [-> ?].
    rewrite !(no_resolution_count _ (probe_events w u))
      by auto using is_name_resolution_resolution, is_arrival_print_resolution,
                    probe_events_no_resolution.
    lia.
  - rewrite !(no_resolution_count _ (continue_events w wnode u))
      by auto using is_name_resolution_resolution, is_arrival_print_resolution,
                    continue_events_no_resolution.
    lia.
Qed.

Lemma continue_events_unknown w wnode u :
  count_events is_unknown_print (continue_events w wnode u) =
    if target_matches w wnode u then 1%nat else 0%nat.
Proof.
  unfold continue_events, target_matches, probe_events.
  case_bool_decide; cbn [andb]; [|done].
  destruct (io_target_devobj w u); [case_bool_decide|]; done.
Qed.

Lemma flat_map_continue_events_unknown w wnode l :
  count_events is_unknown_print (flat_map (continue_events w wnode) l) =
    length (List.filter (target_matches w wnode) l).
Proof.
  induction l as [|u l IH]; cbn [flat_map List.filter]; [done|].
  rewrite count_events_app, continue_events_unknown, IH.
  by destruct (target_matches w wnode u).
Qed.

Lemma scan_events_no_match arrival w wnode l :
  Forall (λ u, target_matches w wnode u = false) l →
  scan_events arrival w wnode l = flat_map (continue_events w wnode) l.
Proof.
  induction 1 as [|u l Hu _ IH]; cbn [scan_events flat_map]; [done|].
  by rewrite Hu, IH.
Qed.

Lemma emitted_RegisterForWMINotification_body arrival w :
  emitted (RegisterForWMINotification_body arrival) w =
    if NT_SUCCESS (wmi_open_status w) then
      if NT_SUCCESS (wmi_setcb_status w) then
        [EvOpenBlock arrival; EvSetCallback (Some (wmi_open_object w))]
      else
        [EvOpenBlock arrival; EvSetCallback (Some (wmi_open_object w));
         EvKdPrint (MsgUnableToRegister (wmi_setcb_status w));
         EvDereference (Some (wmi_open_object w))]
    else
      [EvOpenBlock arrival;
       EvKdPrint (MsgUnableToOpenBlock (wmi_open_status w))].
Proof.
  apply emitted_trace. unfold exec. rewrite RegisterForWMINotification_body_run.
  destruct (NT_SUCCESS (wmi_open_status w));
    [destruct (NT_SUCCESS (wmi_setcb_status w))|]; done.
Qed.

Lemma emitted_UnregisterForWMINotification w :
  emitted UnregisterForWMINotification w =
    match WMIDeviceArrivalNotificationObject w with
    | Some h => [EvDereference (Some h)]
    | None => []
    end.
Proof.
  apply emitted_trace. unfold exec. rewrite UnregisterForWMINotification_run.
  destruct (WMIDeviceArrivalNotificationObject w); cbn; [done|].
  by rewrite app_nil_r.
Qed.

(** X10.  When no target of the collection matches the event (none is
    Started with a device object of the provider of the event), whatever
    the class of the event, the callback makes one continuing pass per
    item and releases the lock; it queries no property and the only
    messages it prints are not-opened messages. *)
Theorem WmiNotificationCallback_no_match
    (arrival : GUID) (wnode : WNODE_SINGLE_INSTANCE) (w : World) :
  Forall (λ u, target_matches w wnode u = false) (TargetDeviceCollection w) →
  emitted (WmiNotificationCallback arrival wnode) w =
    [EvLockAcquire]
      ++ flat_map (continue_events w wnode) (TargetDeviceCollection w)
      ++ [EvLockRelease]
  ∧ (∀ u prop,
       EvQueryProperty u prop ∉ emitted (WmiNotificationCallback arrival wnode) w)
  ∧ (∀ msg,
       EvKdPrint msg ∈ emitted (WmiNotificationCallback arrival wnode) w →
       ∃ u, msg = MsgTargetNotOpened u).
Proof.
  intros Hnone. rewrite Forall_forall in Hnone. repeat split.
  - by rewrite emitted_WmiNotificationCallback, scan_events_no_match
      by by apply Forall_forall.
  - intros u prop [?|[?|(Hu & Hm & _)]]%emitted_WmiNotificationCallback_ok;
      try done. specialize (Hnone _ Hu). congruence.
  - intros msg [?|[?|Hok]]%emitted_WmiNotificationCallback_ok; try done.
    destruct msg; cbn in Hok; try done; eauto;
      destruct Hok as (_ & u & Hu & Hm); specialize (Hnone _ Hu); congruence.
Qed.

(** X11.  The callback asks for the device object of a target only when
    the target is Started, and asks for a provider id only with the device
    object of a Started target; both are targets of the collection. *)
Theorem WmiNotificationCallback_started_only
    (arrival : GUID) (wnode : WNODE_SINGLE_INSTANCE) (w : World) :
  (∀ u, EvGetDeviceObject u ∈ emitted (WmiNotificationCallback arrival wnode) w →
        u ∈ TargetDeviceCollection w
        ∧ io_target_state w u = WdfIoTargetStarted)
  ∧ (∀ d, EvProviderId d ∈ emitted (WmiNotificationCallback arrival wnode) w →
          ∃ u, u ∈ TargetDeviceCollection w
               ∧ io_target_state w u = WdfIoTargetStarted
               ∧ io_target_devobj w u = Some d).
Proof.
  split.
  - by intros u [?|[?|?]]%emitted_WmiNotificationCallback_ok.
  - by intros d [?|[?|?]]%emitted_WmiNotificationCallback_ok.
Qed.

(** X12.  A property of a target is queried only when the event is of the
    device-arrival class and the target is one of the collection that is
    Started and has the provider id of the event. *)
Theorem WmiNotificationCallback_queries_match_only
    (arrival : GUID) (wnode : WNODE_SINGLE_INSTANCE) (w : World)
    (u : WDFIOTARGET) (prop : DEVICE_REGISTRY_PROPERTY) :
  EvQueryProperty u prop ∈ emitted (WmiNotificationCallback arrival wnode) w →
  u ∈ TargetDeviceCollection w
  ∧ target_matches w wnode u = true
  ∧ Guid (WnodeHeader wnode) = arrival.
Proof. by intros [?|[?|?]]%emitted_WmiNotificationCallback_ok. Qed.

(** X13.  One call of the callback resolves at most one name and prints
    at most one arrival message, however many targets match. *)
Theorem WmiNotificationCallback_at_most_one
    (arrival : GUID) (wnode : WNODE_SINGLE_INSTANCE) (w : World) :
  (count_events is_name_resolution
     (emitted (WmiNotificationCallback arrival wnode) w) ≤ 1)%nat
  ∧ (count_events is_arrival_print
       (emitted (WmiNotificationCallback arrival wnode) w) ≤ 1)%nat.
Proof.
  rewrite emitted_WmiNotificationCallback, !count_events_app.
  destruct (scan_events_count arrival w wnode (TargetDeviceCollection w)).
  cbn. lia.
Qed.

(** X14.  The callback deletes only a buffer of its own: every
    WdfObjectDelete is on a handle that is not NULL and was not live when
    the callback was entered. *)
Theorem WmiNotificationCallback_deletes_own_buffer
    (arrival : GUID) (wnode : WNODE_SINGLE_INSTANCE) (w : World)
    (memory : option WDFMEMORY) :
  EvMemoryDelete memory ∈ emitted (WmiNotificationCallback arrival wnode) w →
  ∃ h, memory = Some h ∧ wdf_memory w !! h = None.
Proof. by intros [?|[?|?]]%emitted_WmiNotificationCallback_ok. Qed.

(** X15.  A call of the callback leaves nothing behind that a later call
    could see: the same event delivered again makes the callback emit the
    same events again. *)
Theorem WmiNotificationCallback_again
    (arrival : GUID) (wnode : WNODE_SINGLE_INSTANCE) (w : World) :
  emitted (WmiNotificationCallback arrival wnode)
    (exec (WmiNotificationCallback arrival wnode) w)
  = emitted (WmiNotificationCallback arrival wnode) w.
Proof.
  rewrite !emitted_WmiNotificationCallback.
  unfold exec. rewrite WmiNotificationCallback_run.
  cbn [snd set_lock add_trace TargetDeviceCollection].
  by rewrite scan_events_set_lock, scan_events_add_trace.
Qed.

(** X16.  Registration and unregistration never pass NULL to the kernel:
    [RegisterForWMINotification] sets the callback and dereferences only
    on the object that was opened, [UnregisterForWMINotification]
    dereferences only what the slot holds. *)
Theorem notification_object_never_null (arrival : GUID) (w : World) :
  (EvSetCallback None ∉ emitted (RegisterForWMINotification_body arrival) w)
  ∧ (EvDereference None ∉ emitted (RegisterForWMINotification_body arrival) w)
  ∧ (EvDereference None ∉ emitted UnregisterForWMINotification w).
Proof.
  rewrite emitted_RegisterForWMINotification_body,
    emitted_UnregisterForWMINotification.
  repeat split;
    repeat match goal with |- context [match ?x with _ => _ end] => destruct x end;
    rewrite ?elem_of_cons, elem_of_nil; intuition congruence.
Qed.

Lemma RtlInitUnicodeString_upto_prefix room buffer :
  RtlInitUnicodeString_upto room buffer `prefix_of` buffer.
Proof.
  revert room. induction buffer as [|c rest IH]; intros room; cbn; [done|].
  destruct (bool_decide (c = 0) || bool_decide (room ≤ 0)).
  - apply prefix_nil.
  - apply prefix_cons, IH.
Qed.

Lemma RtlInitUnicodeString_upto_no_null room buffer :
  0 ∉ RtlInitUnicodeString_upto room buffer.
Proof.
  revert room. induction buffer as [|c rest IH]; intros room; cbn;
    [apply not_elem_of_nil|].
  case_bool_decide as Hc; cbn [orb]; [apply not_elem_of_nil|].
  case_bool_decide; [apply not_elem_of_nil|].
  rewrite elem_of_cons. intros [?|?]; [congruence|by eapply IH].
Qed.

Lemma RtlInitUnicodeString_upto_length room buffer :
  0 ≤ room →
  Z.of_nat (length (RtlInitUnicodeString_upto room buffer)) ≤ room.
Proof.
  revert room. induction buffer as [|c rest IH]; intros room Hroom; cbn; [lia|].
  case_bool_decide as Hc; cbn [orb length]; [lia|].
  case_bool_decide; cbn [length]; [lia|].
  specialize (IH (room - 1)). lia.
Qed.

Lemma RtlInitUnicodeString_upto_terminated room text tail :
  0 ∉ text →
  Z.of_nat (length text) ≤ room →
  RtlInitUnicodeString_upto room (text ++ 0 :: tail) = text.
Proof.
  revert room. induction text as [|c text IH]; intros room Hnull Hroom; cbn.
  - by rewrite bool_decide_true.
  - rewrite not_elem_of_cons in Hnull. destruct Hnull as [Hc Hnull].
    cbn [length] in Hroom.
    rewrite (bool_decide_false (c = 0)), (bool_decide_false (room ≤ 0)) by lia.
    cbn [orb]. rewrite IH; [done|done|lia].
Qed.

Lemma RtlInitUnicodeString_upto_full room text tail :
  0 ∉ text →
  Z.of_nat (length text) = room →
  RtlInitUnicodeString_upto room (text ++ tail) = text.
Proof.
  revert room. induction text as [|c text IH]; intros room Hnull Hroom; cbn.
  - cbn in Hroom. subst room. destruct tail as [|c tail]; cbn; [done|].
    by rewrite orb_true_r.
  - rewrite not_elem_of_cons in Hnull. destruct Hnull as [Hc Hnull].
    cbn [length] in Hroom.
    rewrite (bool_decide_false (c = 0)), (bool_decide_false (room ≤ 0)) by lia.
    cbn [orb]. rewrite IH; [done|done|lia].
Qed.

(** X17.  The friendly name has precedence: when the first matching
    target of an arrival event has a friendly name, the name printed is
    the string RtlInitUnicodeString makes of the friendly-name buffer, no
    other arrival message is printed, and the device description is not
    queried.  That string is the start of the buffer, has no null
    character and at most 32766 characters (the most a UNICODE_STRING
    holds); it is the whole text before the first null character when
    that text is no longer than this, and the first 32766 characters of
    a longer text. *)
Theorem WmiNotificationCallback_prints_friendly_name
    (arrival : GUID) (wnode : WNODE_SINGLE_INSTANCE) (w : World)
    (pre : list WDFIOTARGET) (t : WDFIOTARGET) (post : list WDFIOTARGET)
    (st1 : NTSTATUS) (buf1 : list WCHAR) :
  Guid (WnodeHeader wnode) = arrival →
  TargetDeviceCollection w = pre ++ t :: post →
  Forall (λ u, target_matches w wnode u = false) pre →
  target_matches w wnode t = true →
  io_target_property w t DevicePropertyFriendlyName = (st1, buf1) →
  NT_SUCCESS st1 = true →
  (∀ name,
     EvKdPrint (MsgDeviceArrival name)
       ∈ emitted (WmiNotificationCallback arrival wnode) w
     ↔ name = RtlInitUnicodeString buf1)
  ∧ (∀ u, EvQueryProperty u DevicePropertyDeviceDescription
            ∉ emitted (WmiNotificationCallback arrival wnode) w)
  ∧ RtlInitUnicodeString buf1 `prefix_of` buf1
  ∧ (0 ∉ RtlInitUnicodeString buf1)
  ∧ Z.of_nat (length (RtlInitUnicodeString buf1)) ≤ UNICODE_STRING_MAX_CHARS
  ∧ (∀ text tail,
       buf1 = text ++ 0 :: tail →
       0 ∉ text →
       Z.of_nat (length text) ≤ UNICODE_STRING_MAX_CHARS →
       RtlInitUnicodeString buf1 = text)
  ∧ (∀ text tail,
       buf1 = text ++ tail →
       0 ∉ text →
       Z.of_nat (length text) = UNICODE_STRING_MAX_CHARS →
       RtlInitUnicodeString buf1 = text).
Proof.
  intros Hg Hcoll Hpre Ht H1 S1.
  rewrite emitted_WmiNotificationCallback, Hcoll,
    (scan_events_first_match arrival w wnode pre t post Hg Hpre Ht).
  unfold resolve_events, name_query. rewrite H1, S1, S1.
  pose proof (flat_map_continue_events_no_resolution w wnode pre) as Hc.
  pose proof (probe_events_no_resolution w t) as Hp.
  rewrite Forall_forall in Hc, Hp.
  split; [|split; [|split; [|split; [|split; [|split]]]]].
  - intros name. rewrite !elem_of_app, !elem_of_cons, !elem_of_nil. split.
    + intros [?|[[Hin|[Hin|?]]|?]]; try (intuition congruence).
      * by apply Hc in Hin.
      * by apply Hp in Hin.
    + intros ->. right. left. right. right. cbn. auto.
  - intros u. rewrite !elem_of_app, !elem_of_cons, !elem_of_nil.
    intros [?|[[Hin|[Hin|?]]|?]]; try (intuition congruence).
    + by apply Hc in Hin.
    + by apply Hp in Hin.
  - apply RtlInitUnicodeString_upto_prefix.
  - apply RtlInitUnicodeString_upto_no_null.
  - by apply RtlInitUnicodeString_upto_length.
  - intros text tail -> Hnull Hlen.
    by apply RtlInitUnicodeString_upto_terminated.
  - intros text tail -> Hnull Hlen.
    by apply RtlInitUnicodeString_upto_full.
Qed.

(** X18.  For an event of another class than device arrival the callback
    prints the unknown-event message once per target of the collection
    that is Started and has the provider id of the event. *)
Theorem WmiNotificationCallback_unknown_count
    (arrival : GUID) (wnode : WNODE_SINGLE_INSTANCE) (w : World) :
  Guid (WnodeHeader wnode) ≠ arrival →
  count_events is_unknown_print
    (emitted (WmiNotificationCallback arrival wnode) w)
  = length (List.filter (target_matches w wnode) (TargetDeviceCollection w)).
Proof.
  intros Hg.
  rewrite emitted_WmiNotificationCallback, scan_events_other_class by done.
  rewrite !count_events_app, flat_map_continue_events_unknown. cbn. lia.
Qed.

(** X19.  Every message about the event has its cause in the collection:
    the unknown-event message is printed only for an event of another
    class, an arrival message only for an event of the arrival class, and
    either only when a target of the collection is Started and has the
    provider id of the event. *)
Theorem WmiNotificationCallback_print_cause
    (arrival : GUID) (wnode : WNODE_SINGLE_INSTANCE) (w : World) :
  (EvKdPrint MsgUnknownEvent ∈ emitted (WmiNotificationCallback arrival wnode) w →
     Guid (WnodeHeader wnode) ≠ arrival
     ∧ ∃ u, u ∈ TargetDeviceCollection w ∧ target_matches w wnode u = true)
  ∧ (∀ name,
       EvKdPrint (MsgDeviceArrival name)
         ∈ emitted (WmiNotificationCallback arrival wnode) w →
       Guid (WnodeHeader wnode) = arrival
       ∧ ∃ u, u ∈ TargetDeviceCollection w ∧ target_matches w wnode u = true).
Proof.
  split.
  - by intros [?|[?|?]]%emitted_WmiNotificationCallback_ok.
  - by intros name [?|[?|?]]%emitted_WmiNotificationCallback_ok.
Qed.

(** *** The further properties on the example *)

Lemma RegisterForWMINotification_success_witness :
  WMIDeviceArrivalNotificationObject
    (exec (RegisterForWMINotification_body example_arrival)
       example_world_registrable)
  = Some 77%positive.
Proof.
  apply (RegisterForWMINotification_success true example_arrival
           example_world_registrable
           (exec (RegisterForWMINotification_body example_arrival)
              example_world_registrable)
           STATUS_SUCCESS).
  - vm_compute. reflexivity.
  - reflexivity.
Defined.

Lemma RegisterForWMINotification_then_Unregister_witness :
  ob_refs (exec UnregisterForWMINotification
             (exec (RegisterForWMINotification_body example_arrival)
                example_world_registrable))
  = ob_refs example_world_registrable.
Proof.
  apply (RegisterForWMINotification_then_Unregister true example_arrival
           example_world_registrable
           (exec (RegisterForWMINotification_body example_arrival)
              example_world_registrable)
           STATUS_SUCCESS).
  - vm_compute. reflexivity.
  - reflexivity.
Defined.

Lemma UnregisterForWMINotification_after_failure_witness :
  UnregisterForWMINotification
    (exec (RegisterForWMINotification_body example_arrival) example_world)
  = ((), exec (RegisterForWMINotification_body example_arrival) example_world).
Proof.
  apply (UnregisterForWMINotification_after_failure true example_arrival
           example_world
           (exec (RegisterForWMINotification_body example_arrival) example_world)
           STATUS_UNSUCCESSFUL).
  - vm_compute. reflexivity.
  - reflexivity.
Defined.

Lemma RegisterForWMINotification_twice_witness :
  RegisterForWMINotification true example_arrival
    (exec (RegisterForWMINotification_body example_arrival)
       example_world_registrable)
  = AssertionFailed
      (exec (RegisterForWMINotification_body example_arrival)
         example_world_registrable).
Proof.
  apply (RegisterForWMINotification_twice example_arrival
           example_world_registrable
           (exec (RegisterForWMINotification_body example_arrival)
              example_world_registrable)
           STATUS_SUCCESS).
  - vm_compute. reflexivity.
  - reflexivity.
Defined.

Lemma GetTargetFriendlyName_description_witness :
  ∃ m,
    eval (GetTargetFriendlyName 2%positive) example_world = (STATUS_SUCCESS, Some m)
    ∧ wdf_memory (exec (GetTargetFriendlyName 2%positive) example_world) !! m
        = Some [84; 50; 0; 7]
    ∧ emitted (GetTargetFriendlyName 2%positive) example_world =
        [EvQueryProperty 2%positive DevicePropertyFriendlyName;
         EvQueryProperty 2%positive DevicePropertyDeviceDescription].
Proof.
  apply (GetTargetFriendlyName_description 2%positive example_world
           STATUS_OBJECT_NAME_NOT_FOUND STATUS_SUCCESS [] [84; 50; 0; 7]).
  - reflexivity.
  - reflexivity.
  - discriminate.
  - reflexivity.
  - reflexivity.
Defined.

Lemma GetTargetFriendlyName_friendly_witness :
  ∃ m,
    eval (GetTargetFriendlyName 3%positive) example_world = (STATUS_SUCCESS, Some m)
    ∧ wdf_memory (exec (GetTargetFriendlyName 3%positive) example_world) !! m
        = Some [84; 51; 0]
    ∧ emitted (GetTargetFriendlyName 3%positive) example_world =
        [EvQueryProperty 3%positive DevicePropertyFriendlyName].
Proof.
  apply (GetTargetFriendlyName_friendly 3%positive example_world
           STATUS_SUCCESS [84; 51; 0]).
  - reflexivity.
  - reflexivity.
Defined.

Lemma WmiNotificationCallback_no_match_witness :
  emitted (WmiNotificationCallback example_arrival
             (example_stray_event example_arrival)) example_world =
    [EvLockAcquire;
     EvGetState 1%positive; EvKdPrint (MsgTargetNotOpened 1%positive);
     EvGetState 2%positive; EvGetDeviceObject 2%positive; EvProviderId 12%positive;
     EvGetState 3%positive; EvGetDeviceObject 3%positive; EvProviderId 13%positive;
     EvLockRelease].
Proof.
  apply (WmiNotificationCallback_no_match example_arrival
           (example_stray_event example_arrival) example_world).
  repeat constructor.
Defined.

Lemma WmiNotificationCallback_started_only_witness :
  2%positive ∈ TargetDeviceCollection example_world
  ∧ io_target_state example_world 2%positive = WdfIoTargetStarted.
Proof.
  apply (WmiNotificationCallback_started_only example_arrival
           (example_event example_arrival []) example_world).
  vm_compute. repeat constructor.
Defined.

Lemma WmiNotificationCallback_queries_match_only_witness :
  2%positive ∈ TargetDeviceCollection example_world
  ∧ target_matches example_world (example_event example_arrival []) 2%positive
      = true
  ∧ Guid (WnodeHeader (example_event example_arrival [])) = example_arrival.
Proof.
  apply (WmiNotificationCallback_queries_match_only example_arrival
           (example_event example_arrival []) example_world
           2%positive DevicePropertyDeviceDescription).
  vm_compute. repeat constructor.
Defined.

Lemma WmiNotificationCallback_deletes_own_buffer_witness :
  ∃ h, Some 1%positive = Some h ∧ wdf_memory example_world !! h = None.
Proof.
  apply (WmiNotificationCallback_deletes_own_buffer example_arrival
           (example_event example_arrival []) example_world).
  vm_compute. repeat constructor.
Defined.

Lemma WmiNotificationCallback_prints_friendly_name_witness :
  EvKdPrint (MsgDeviceArrival [84; 51])
    ∈ emitted (WmiNotificationCallback example_arrival
                 (example_event example_arrival []))
        (example_world_of [1; 3; 2]%positive).
Proof.
  apply (WmiNotificationCallback_prints_friendly_name example_arrival
           (example_event example_arrival [])
           (example_world_of [1; 3; 2]%positive)
           [1%positive] 3%positive [2%positive] STATUS_SUCCESS [84; 51; 0]).
  - reflexivity.
  - reflexivity.
  - repeat constructor.
  - reflexivity.
  - reflexivity.
  - reflexivity.
  - reflexivity.
Defined.

Lemma WmiNotificationCallback_unknown_count_witness :
  count_events is_unknown_print
    (emitted (WmiNotificationCallback example_arrival
                (example_event example_other [])) example_world)
  = 2%nat.
Proof.
  apply (WmiNotificationCallback_unknown_count example_arrival
           (example_event example_other []) example_world).
  discriminate.
Defined.

Lemma WmiNotificationCallback_print_cause_witness :
  Guid (WnodeHeader (example_event example_other [])) ≠ example_arrival
  ∧ ∃ u, u ∈ TargetDeviceCollection example_world
         ∧ target_matches example_world (example_event example_other []) u = true.
Proof.
  apply (WmiNotificationCallback_print_cause example_arrival
           (example_event example_other []) example_world).
  vm_compute. repeat constructor.
Defined.
